(** * AArch32 back end of the translation-table library (xlat_tables_v2)

    A shallow embedding of [lib/xlat_tables_v2/aarch32/xlat_tables_arch.c]:
    the granule and execute-never queries, the TLB maintenance sequences
    and [setup_mmu_cfg], which assembles the MAIR0 / TTBCR / TTBR0 image.

    Conventions.
    - C integers are [Z] with the wrap-around of their width written out
      ([u32], [u64]); [size_t] and [uintptr_t] are 32 bits wide on AArch32.
    - The barrier and maintenance instructions are recorded, in program
      order, in the [trace] of the processor state.
    - A function that can stop in [assert] or reach undefined behaviour
      runs in the monad [M]: it maps a processor state to an [outcome]. *)

From Stdlib Require Import ZArith Lia Bool List.
From stdpp Require Import base list.

Local Open Scope Z_scope.

(** ** Fixed-width integers *)

Definition u32 (z : Z) : Z := z mod 2 ^ 32.
Definition u64 (z : Z) : Z := z mod 2 ^ 64.

(** [uintptr_t] and [size_t] are 32-bit unsigned on this architecture. *)
Definition uintptr_t (z : Z) : Z := u32 z.

Definition UINT32_MAX : Z := 0xFFFFFFFF.

(** A value of a 32-bit unsigned C type. *)
Definition is_u32 (z : Z) : Prop := 0 <= z <= UINT32_MAX.

(** ** Build configuration

    The preprocessor symbols the file tests: [ENABLE_ASSERTIONS] (line 38,
    and the expansion of [assert]), [ARM_ARCH_MAJOR] / [ARM_ARCH_MINOR]
    (lines 17 and 175) and [ARMV7_SUPPORTS_LARGE_PAGE_ADDRESSING]. *)

Record build_cfg : Type := {
  ENABLE_ASSERTIONS : bool;
  ARM_ARCH_MAJOR : Z;
  ARM_ARCH_MINOR : Z;
  ARMV7_SUPPORTS_LARGE_PAGE_ADDRESSING : bool
}.

(** Modelled from the spec: the macro [ARM_ARCH_AT_LEAST] of utils_def.h is
    not among the sources; the spec describes the test as "the compiled
    hardware revision qualifies", i.e. revision (major, minor) is at least
    the one asked for. *)
Definition ARM_ARCH_AT_LEAST (bc : build_cfg) (maj min : Z) : bool :=
  (maj <? ARM_ARCH_MAJOR bc)
  || ((ARM_ARCH_MAJOR bc =? maj) && (min <=? ARM_ARCH_MINOR bc)).

(** Lines 17-19: the file refuses to compile for ARMv7 without LPAE. *)
Definition build_accepted (bc : build_cfg) : bool :=
  negb ((ARM_ARCH_MAJOR bc =? 7)
        && negb (ARMV7_SUPPORTS_LARGE_PAGE_ADDRESSING bc)).

(** ** Header constants

    The constants of arch.h, xlat_tables_defs.h, xlat_tables_v2.h and
    xlat_mmu_helpers.h that the file uses.  The headers are not among the
    sources, so the constants are parameters of the embedding, collected in
    one record; [aarch32_hdr] below gives the architectural values. *)

Record arch_hdr : Type := {
  PAGE_SIZE_4KB : Z;
  SCTLR_M_BIT : Z;
  SCR_NS_BIT : Z;
  XN : Z;
  TLBI_ADDR_SHIFT : Z;
  TLBI_ADDR_MASK : Z;
  ATTR_DEVICE : Z;
  ATTR_IWBWA_OWBWA_NTR : Z;
  ATTR_NON_CACHEABLE : Z;
  ATTR_DEVICE_INDEX : Z;
  ATTR_IWBWA_OWBWA_NTR_INDEX : Z;
  ATTR_NON_CACHEABLE_INDEX : Z;
  TTBCR_EAE_BIT : Z;
  TTBCR_EPD1_BIT : Z;
  TTBCR_SH0_NON_SHAREABLE : Z;
  TTBCR_RGN0_OUTER_NC : Z;
  TTBCR_RGN0_INNER_NC : Z;
  TTBCR_SH0_INNER_SHAREABLE : Z;
  TTBCR_RGN0_OUTER_WBA : Z;
  TTBCR_RGN0_INNER_WBA : Z;
  TTBCR_TxSZ_MIN : Z;
  TTBCR_TxSZ_MAX : Z;
  XLAT_TABLE_NC : Z;
  TTBR_CNP_BIT : Z;
  MMU_CFG_MAIR : nat;
  MMU_CFG_TCR : nat;
  MMU_CFG_TTBR0 : nat
}.

(** ** Processor state and the execution monad *)

(** The maintenance and barrier instructions the file issues. *)
Inductive insn : Type :=
  | dsbishst_op
  | dsbish_op
  | isb_op
  | bpiallis_op
  | tlbimvaais_op (arg : Z).

Record cpu : Type := {
  scr : Z;
  sctlr : Z;
  trace : list insn
}.

Definition issue (i : insn) (s : cpu) : cpu :=
  {| scr := scr s; sctlr := sctlr s; trace := trace s ++ [i] |}.

(** The ways a C function of this file can leave the defined path. *)
Inductive undefined : Type :=
  | ctz_of_zero
  | store_out_of_bounds.

Inductive outcome (A : Type) : Type :=
  | Ret (a : A) (s : cpu)
  | AssertFail
  | Undef (u : undefined).

Arguments Ret {A} a s.
Arguments AssertFail {A}.
Arguments Undef {A} u.

Definition M (A : Type) : Type := cpu -> outcome A.

#[global] Instance M_ret : MRet M := fun A a s => Ret a s.

#[global] Instance M_bind : MBind M := fun A B k m s =>
  match m s with
  | Ret a s' => k a s'
  | AssertFail => AssertFail
  | Undef u => Undef u
  end.

Definition undef {A : Type} (u : undefined) : M A := fun _ => Undef u.

Definition emit (i : insn) : M unit := fun s => Ret tt (issue i s).

Definition read_scr : M Z := fun s => Ret (scr s) s.
Definition read_sctlr : M Z := fun s => Ret (sctlr s) s.

(** The instruction helpers of arch_helpers.h, as trace events. *)
Definition dsbishst : M unit := emit dsbishst_op.
Definition dsbish : M unit := emit dsbish_op.
Definition isb : M unit := emit isb_op.
Definition bpiallis : M unit := emit bpiallis_op.
Definition tlbimvaais (arg : Z) : M unit := emit (tlbimvaais_op arg).

(** Modelled from the spec: [assert] (assert.h is not among the sources).
    "Violated preconditions trigger an assertion that halts execution";
    in a build without [ENABLE_ASSERTIONS] the macro expands to nothing
    and its argument is not evaluated. *)
Definition assert (bc : build_cfg) (cond : M bool) : M unit :=
  if ENABLE_ASSERTIONS bc
  then c ← cond; (if c : bool then mret tt else (fun _ => AssertFail))
  else mret tt.

(** [__builtin_ctzll]: the number of trailing zero bits; undefined at 0. *)
Fixpoint ctz_pos (p : positive) : Z :=
  match p with
  | xO q => 1 + ctz_pos q
  | _ => 0
  end.

Definition builtin_ctzll (x : Z) : M Z :=
  match u64 x with
  | Zpos p => mret (ctz_pos p)
  | _ => undef ctz_of_zero
  end.

(** [params[i] = v] on the caller's array of [uint64_t]. *)
Definition store_param (params : list Z) (i : nat) (v : Z) : M (list Z) :=
  if decide (i < length params)%nat
  then mret (<[i := v]> params)
  else undef store_out_of_bounds.

Section Arch.

Context (hdr : arch_hdr) (bc : build_cfg).

(** Modelled from the spec: function-like macros of the missing headers.
    [IS_POWER_OF_TWO] (utils_def.h) is "an exact power of two" as the usual
    bit test; [CHECK_VIRT_ADDR_SPACE_SIZE] (xlat_tables_arch.h) accepts the
    sizes "representable as an address-space size": a power of two between
    the sizes given by the largest and the smallest TxSZ. *)
Definition IS_POWER_OF_TWO (x : Z) : bool :=
  Z.land x (uintptr_t (x - 1)) =? 0.

Definition MIN_VIRT_ADDR_SPACE_SIZE : Z :=
  u64 (Z.shiftl 1 (32 - TTBCR_TxSZ_MAX hdr)).

Definition MAX_VIRT_ADDR_SPACE_SIZE : Z :=
  u64 (Z.shiftl 1 (32 - TTBCR_TxSZ_MIN hdr)).

Definition CHECK_VIRT_ADDR_SPACE_SIZE (size : Z) : bool :=
  (MIN_VIRT_ADDR_SPACE_SIZE <=? u64 size)
  && (u64 size <=? MAX_VIRT_ADDR_SPACE_SIZE)
  && IS_POWER_OF_TWO size.

(** Modelled from the spec: [GET_NS_BIT] / [IS_IN_SECURE] (arch.h,
    arch_helpers.h): "caller executes in the expected secure context",
    read from the non-secure bit of SCR. *)
Definition GET_NS_BIT (scr_val : Z) : Z := Z.land scr_val (SCR_NS_BIT hdr).

Definition IS_IN_SECURE : M bool :=
  v ← read_scr; mret (GET_NS_BIT v =? 0).

(** Modelled from the spec: [UPPER_ATTRS] (xlat_tables_defs.h) places a
    3-bit value in "a translation-table entry's upper attribute field",
    which starts at bit 52 of a descriptor. *)
Definition UPPER_ATTRS (x : Z) : Z := u64 (Z.shiftl (Z.land x 0x7) 52).

(** Modelled from the spec: [MAIR0_ATTR_SET] (arch.h) places an attribute
    in the attribute table at "its fixed 8-bit index". *)
Definition MAIR0_ATTR_SET (attr index : Z) : Z :=
  Z.shiftl attr (Z.shiftl index 3).

(** Modelled from the spec: [TLBI_ADDR] (arch.h) turns a virtual address
    into the operand of the invalidate-by-address instruction. *)
Definition TLBI_ADDR (x : Z) : Z :=
  Z.land (Z.shiftr x (TLBI_ADDR_SHIFT hdr)) (TLBI_ADDR_MASK hdr).

(** ** The functions of xlat_tables_arch.c *)

Definition xlat_arch_is_granule_size_supported (size : Z) : Z :=
  if size =? PAGE_SIZE_4KB hdr then 1 else 0.

Definition xlat_arch_get_max_supported_granule_size : Z :=
  PAGE_SIZE_4KB hdr.

(** Compiled only when [ENABLE_ASSERTIONS] is set. *)
Definition xlat_arch_get_max_supported_pa : option Z :=
  if ENABLE_ASSERTIONS bc then Some (u64 (Z.shiftl 1 40 - 1)) else None.

Definition is_mmu_enabled_ctx (ctx : Z) : M Z :=
  v ← read_sctlr;
  mret (if Z.land v (SCTLR_M_BIT hdr) =? 0 then 0 else 1).

Definition xlat_arch_regime_get_xn_desc (xlat_regime : Z) : Z :=
  UPPER_ATTRS (XN hdr).

Definition xlat_arch_tlbi_va (va : Z) (xlat_regime : Z) : M unit :=
  dsbishst;;
  tlbimvaais (TLBI_ADDR va).

Definition xlat_arch_tlbi_va_sync : M unit :=
  bpiallis;;
  dsbish;;
  isb.

Definition xlat_arch_current_el : Z := 1.

Definition setup_mmu_cfg (params : list Z) (flags : Z) (base_table : Z)
    (max_pa : Z) (max_va : Z) (xlat_regime : Z) : M (list Z) :=
  assert bc IS_IN_SECURE;;
  let mair := u64 (MAIR0_ATTR_SET (ATTR_DEVICE hdr) (ATTR_DEVICE_INDEX hdr)) in
  let mair := u64 (Z.lor mair (MAIR0_ATTR_SET (ATTR_IWBWA_OWBWA_NTR hdr)
                                 (ATTR_IWBWA_OWBWA_NTR_INDEX hdr))) in
  let mair := u64 (Z.lor mair (MAIR0_ATTR_SET (ATTR_NON_CACHEABLE hdr)
                                 (ATTR_NON_CACHEABLE_INDEX hdr))) in
  let ttbcr := u32 (TTBCR_EAE_BIT hdr) in
  let ttbcr := u32 (Z.lor ttbcr (TTBCR_EPD1_BIT hdr)) in
  ttbcr ← (if max_va =? UINT32_MAX then mret ttbcr else
             let virtual_addr_space_size := uintptr_t (max_va + 1) in
             assert bc
               (mret (CHECK_VIRT_ADDR_SPACE_SIZE virtual_addr_space_size));;
             tz ← builtin_ctzll virtual_addr_space_size;
             let t0sz := 32 - tz in
             mret (u32 (Z.lor ttbcr (u32 t0sz))));
  let ttbcr :=
    if negb (Z.land flags (XLAT_TABLE_NC hdr) =? 0)
    then u32 (Z.lor ttbcr (Z.lor (Z.lor (TTBCR_SH0_NON_SHAREABLE hdr)
                                        (TTBCR_RGN0_OUTER_NC hdr))
                                 (TTBCR_RGN0_INNER_NC hdr)))
    else u32 (Z.lor ttbcr (Z.lor (Z.lor (TTBCR_SH0_INNER_SHAREABLE hdr)
                                        (TTBCR_RGN0_OUTER_WBA hdr))
                                 (TTBCR_RGN0_INNER_WBA hdr))) in
  let ttbr0 := u64 (uintptr_t base_table) in
  let ttbr0 :=
    if ARM_ARCH_AT_LEAST bc 8 2 then u64 (Z.lor ttbr0 (TTBR_CNP_BIT hdr))
    else ttbr0 in
  params ← store_param params (MMU_CFG_MAIR hdr) mair;
  params ← store_param params (MMU_CFG_TCR hdr) (u64 ttbcr);
  store_param params (MMU_CFG_TTBR0 hdr) ttbr0.

End Arch.

(** ** The architectural values of the header constants *)

(** Modelled from the spec: the headers that define these constants are not
    among the sources.  The spec fixes the granule (4096 bytes), the three
    attribute-table entries, the 32-bit native width and the order of the
    MmuConfig triple; the bit positions are those of the AArch32 registers
    TTBCR (EAE bit 31, EPD1 bit 23, SH0 bits 13:12, ORGN0 bits 11:10,
    IRGN0 bits 9:8, T0SZ bits 2:0), TTBR0 (CnP bit 0), SCR (NS bit 0),
    SCTLR (M bit 0) and of the long-descriptor format (XN is bit 2 of the
    upper attributes). *)
Definition aarch32_hdr : arch_hdr := {|
  PAGE_SIZE_4KB := 4096;
  SCTLR_M_BIT := Z.shiftl 1 0;
  SCR_NS_BIT := Z.shiftl 1 0;
  XN := Z.shiftl 1 2;
  TLBI_ADDR_SHIFT := 0;
  TLBI_ADDR_MASK := 0xFFFFF000;
  ATTR_DEVICE := 0x04;
  ATTR_IWBWA_OWBWA_NTR := 0xFF;
  ATTR_NON_CACHEABLE := 0x44;
  ATTR_DEVICE_INDEX := 1;
  ATTR_IWBWA_OWBWA_NTR_INDEX := 0;
  ATTR_NON_CACHEABLE_INDEX := 2;
  TTBCR_EAE_BIT := Z.shiftl 1 31;
  TTBCR_EPD1_BIT := Z.shiftl 1 23;
  TTBCR_SH0_NON_SHAREABLE := Z.shiftl 0 12;
  TTBCR_RGN0_OUTER_NC := Z.shiftl 0 10;
  TTBCR_RGN0_INNER_NC := Z.shiftl 0 8;
  TTBCR_SH0_INNER_SHAREABLE := Z.shiftl 3 12;
  TTBCR_RGN0_OUTER_WBA := Z.shiftl 1 10;
  TTBCR_RGN0_INNER_WBA := Z.shiftl 1 8;
  TTBCR_TxSZ_MIN := 0;
  TTBCR_TxSZ_MAX := 7;
  XLAT_TABLE_NC := Z.shiftl 1 1;
  TTBR_CNP_BIT := 1;
  MMU_CFG_MAIR := 0;
  MMU_CFG_TCR := 1;
  MMU_CFG_TTBR0 := 2
|}.

(** ** Fields of the register image *)

(** The truncation field: T0SZ, bits 2:0 of the translation-control word. *)
Definition TTBCR_T0SZ_SHIFT : Z := 0.
Definition TTBCR_T0SZ_MASK : Z := 0x7.

Definition ttbcr_t0sz (w : Z) : Z :=
  Z.land (Z.shiftr w TTBCR_T0SZ_SHIFT) TTBCR_T0SZ_MASK.

(** The walk attributes of the primary path: SH0, ORGN0 and IRGN0,
    bits 13:8 of the translation-control word. *)
Definition TTBCR_WALK0_MASK : Z := 0x3F00.

Definition ttbcr_walk0 (w : Z) : Z := Z.land w TTBCR_WALK0_MASK.

(** The 8-bit entry [i] of the attribute table. *)
Definition mair_attr (w i : Z) : Z := Z.land (Z.shiftr w (8 * i)) 0xFF.

(** The two walk-attribute encodings [setup_mmu_cfg] chooses between. *)
Definition walk_nc (hdr : arch_hdr) : Z :=
  Z.lor (Z.lor (TTBCR_SH0_NON_SHAREABLE hdr) (TTBCR_RGN0_OUTER_NC hdr))
        (TTBCR_RGN0_INNER_NC hdr).

Definition walk_wbwa (hdr : arch_hdr) : Z :=
  Z.lor (Z.lor (TTBCR_SH0_INNER_SHAREABLE hdr) (TTBCR_RGN0_OUTER_WBA hdr))
        (TTBCR_RGN0_INNER_WBA hdr).

(** ** What a call needs in order to return *)

Definition in_secure (hdr : arch_hdr) (s : cpu) : bool :=
  GET_NS_BIT hdr (scr s) =? 0.

(** The two conditions [setup_mmu_cfg] asserts. *)
Definition preconditions (hdr : arch_hdr) (s : cpu) (max_va : Z) : Prop :=
  in_secure hdr s = true /\
  (max_va <> UINT32_MAX ->
   CHECK_VIRT_ADDR_SPACE_SIZE hdr (uintptr_t (max_va + 1)) = true).

(** With assertions compiled out nothing is checked. *)
Definition asserts_pass (hdr : arch_hdr) (bc : build_cfg) (s : cpu)
    (max_va : Z) : Prop :=
  ENABLE_ASSERTIONS bc = true -> preconditions hdr s max_va.

(** The caller's array has room for the three words. *)
Definition params_fit (hdr : arch_hdr) (params : list Z) : Prop :=
  (MMU_CFG_MAIR hdr < length params)%nat /\
  (MMU_CFG_TCR hdr < length params)%nat /\
  (MMU_CFG_TTBR0 hdr < length params)%nat.

(** ** The register image as closed expressions *)

Definition mair_image (hdr : arch_hdr) : Z :=
  u64 (Z.lor
    (u64 (Z.lor
      (u64 (MAIR0_ATTR_SET (ATTR_DEVICE hdr) (ATTR_DEVICE_INDEX hdr)))
      (MAIR0_ATTR_SET (ATTR_IWBWA_OWBWA_NTR hdr)
                      (ATTR_IWBWA_OWBWA_NTR_INDEX hdr))))
    (MAIR0_ATTR_SET (ATTR_NON_CACHEABLE hdr) (ATTR_NON_CACHEABLE_INDEX hdr))).

Definition ctz_of (x : Z) : Z :=
  match u64 x with
  | Zpos p => ctz_pos p
  | _ => 0
  end.

Definition ttbcr_sized (hdr : arch_hdr) (max_va : Z) : Z :=
  let ttbcr := u32 (Z.lor (u32 (TTBCR_EAE_BIT hdr)) (TTBCR_EPD1_BIT hdr)) in
  if max_va =? UINT32_MAX then ttbcr
  else u32 (Z.lor ttbcr (u32 (32 - ctz_of (uintptr_t (max_va + 1))))).

Definition ttbcr_image (hdr : arch_hdr) (flags max_va : Z) : Z :=
  if negb (Z.land flags (XLAT_TABLE_NC hdr) =? 0)
  then u32 (Z.lor (ttbcr_sized hdr max_va) (walk_nc hdr))
  else u32 (Z.lor (ttbcr_sized hdr max_va) (walk_wbwa hdr)).

Definition ttbr0_image (hdr : arch_hdr) (bc : build_cfg) (base_table : Z) : Z :=
  let ttbr0 := u64 (uintptr_t base_table) in
  if ARM_ARCH_AT_LEAST bc 8 2 then u64 (Z.lor ttbr0 (TTBR_CNP_BIT hdr))
  else ttbr0.

Definition params_image (hdr : arch_hdr) (bc : build_cfg) (params : list Z)
    (flags base_table max_va : Z) : list Z :=
  <[MMU_CFG_TTBR0 hdr := ttbr0_image hdr bc base_table]>
    (<[MMU_CFG_TCR hdr := u64 (ttbcr_image hdr flags max_va)]>
       (<[MMU_CFG_MAIR hdr := mair_image hdr]> params)).

(** The three stores that end [setup_mmu_cfg]. *)
Definition write_image (hdr : arch_hdr) (bc : build_cfg) (params : list Z)
    (flags base_table max_va : Z) : M (list Z) :=
  params ← store_param params (MMU_CFG_MAIR hdr) (mair_image hdr);
  params ← store_param params (MMU_CFG_TCR hdr)
             (u64 (ttbcr_image hdr flags max_va));
  store_param params (MMU_CFG_TTBR0 hdr) (ttbr0_image hdr bc base_table).

(** The shape the attribute table needs: three 8-bit encodings, at three
    different entries of the eight that a 64-bit word holds. *)
Record attr_table_layout (hdr : arch_hdr) : Prop := {
  device_is_byte : 0 <= ATTR_DEVICE hdr < 256;
  iwbwa_is_byte : 0 <= ATTR_IWBWA_OWBWA_NTR hdr < 256;
  nc_is_byte : 0 <= ATTR_NON_CACHEABLE hdr < 256;
  device_index_range : 0 <= ATTR_DEVICE_INDEX hdr < 8;
  iwbwa_index_range : 0 <= ATTR_IWBWA_OWBWA_NTR_INDEX hdr < 8;
  nc_index_range : 0 <= ATTR_NON_CACHEABLE_INDEX hdr < 8;
  device_iwbwa_apart : ATTR_DEVICE_INDEX hdr <> ATTR_IWBWA_OWBWA_NTR_INDEX hdr;
  device_nc_apart : ATTR_DEVICE_INDEX hdr <> ATTR_NON_CACHEABLE_INDEX hdr;
  iwbwa_nc_apart :
    ATTR_IWBWA_OWBWA_NTR_INDEX hdr <> ATTR_NON_CACHEABLE_INDEX hdr
}.

(** The three words go to three different slots of [params]. *)
Definition params_slots_apart (hdr : arch_hdr) : Prop :=
  MMU_CFG_MAIR hdr <> MMU_CFG_TCR hdr /\
  MMU_CFG_MAIR hdr <> MMU_CFG_TTBR0 hdr /\
  MMU_CFG_TCR hdr <> MMU_CFG_TTBR0 hdr.

(** ** Sample states and builds *)

Definition secure_cpu : cpu := {| scr := 0; sctlr := 0; trace := [] |}.
Definition non_secure_cpu : cpu := {| scr := 1; sctlr := 0; trace := [] |}.

Definition armv8_0_debug : build_cfg :=
  {| ENABLE_ASSERTIONS := true; ARM_ARCH_MAJOR := 8; ARM_ARCH_MINOR := 0;
     ARMV7_SUPPORTS_LARGE_PAGE_ADDRESSING := false |}.

Definition armv8_0_release : build_cfg :=
  {| ENABLE_ASSERTIONS := false; ARM_ARCH_MAJOR := 8; ARM_ARCH_MINOR := 0;
     ARMV7_SUPPORTS_LARGE_PAGE_ADDRESSING := false |}.

Definition armv8_2_debug : build_cfg :=
  {| ENABLE_ASSERTIONS := true; ARM_ARCH_MAJOR := 8; ARM_ARCH_MINOR := 2;
     ARMV7_SUPPORTS_LARGE_PAGE_ADDRESSING := false |}.

(** ** A round of invalidations

    The way the two TLB operations are meant to be used together: one
    [xlat_arch_tlbi_va] for each changed entry, in order, and then a single
    [xlat_arch_tlbi_va_sync]. *)

Fixpoint tlbi_va_each (hdr : arch_hdr) (vas : list Z) (xlat_regime : Z)
    : M unit :=
  match vas with
  | [] => mret tt
  | va :: rest =>
      xlat_arch_tlbi_va hdr va xlat_regime;;
      tlbi_va_each hdr rest xlat_regime
  end.

(** The instructions one [xlat_arch_tlbi_va] per address accounts for. *)
Definition tlbi_va_events (hdr : arch_hdr) (vas : list Z) : list insn :=
  flat_map (fun va => [dsbishst_op; tlbimvaais_op (TLBI_ADDR hdr va)]) vas.

(** [n] is the index of the lowest bit of [x] that is set. *)
Definition lowest_set_bit (x n : Z) : Prop :=
  0 <= n /\ Z.testbit x n = true /\
  forall i : Z, 0 <= i < n -> Z.testbit x i = false.

(** ** Trailing zeros *)

Lemma ctz_pos_nonneg (p : positive) : 0 <= ctz_pos p.
Proof. induction p; simpl; lia. Qed.

Lemma ctz_pos_divides (p : positive) : 2 ^ ctz_pos p <= Z.pos p.
Proof.
  induction p as [p IH | p IH |]; simpl ctz_pos; try (simpl; lia).
  rewrite Z.pow_add_r by (auto using ctz_pos_nonneg; lia).
  change (Z.pos p~0) with (2 * Z.pos p). lia.
Qed.

Lemma ctz_pos_pow2 (n : nat) : ctz_pos (Pos.iter xO 1%positive (Pos.of_succ_nat n)) = Z.of_nat n + 1.
Proof.
  induction n as [| n IH]; [reflexivity |].
  rewrite SuccNat2Pos.inj_succ, Pos.iter_succ. simpl ctz_pos. rewrite IH. lia.
Qed.

Lemma pow2_iter_xO (n : nat) :
  2 ^ (Z.of_nat n + 1)
  = Z.pos (Pos.iter xO 1%positive (Pos.of_succ_nat n)).
Proof.
  induction n as [| n IH]; [reflexivity |].
  rewrite SuccNat2Pos.inj_succ, Pos.iter_succ.
  rewrite (Pos2Z.inj_xO (Pos.iter _ _ _)), <- IH.
  rewrite Nat2Z.inj_succ, <- Z.add_1_r, (Z.pow_add_r _ _ 1) by lia.
  change (2 ^ 1) with 2. lia.
Qed.

Lemma ctz_of_pow2 (k : Z) : 0 <= k < 64 -> ctz_of (2 ^ k) = k.
Proof.
  intros Hk. unfold ctz_of, u64.
  rewrite Z.mod_small by (split; [lia | apply Z.pow_lt_mono_r; lia]).
  destruct (Z.eq_dec k 0) as [-> | Hne]; [reflexivity |].
  assert (Hn : k = Z.of_nat (Z.to_nat (k - 1)) + 1) by lia.
  rewrite Hn, pow2_iter_xO. apply ctz_pos_pow2.
Qed.

Lemma ctz_of_bounds (x : Z) : 0 < x <= UINT32_MAX -> 0 <= ctz_of x <= 31.
Proof.
  unfold UINT32_MAX. intros Hx. unfold ctz_of, u64.
  rewrite Z.mod_small by lia.
  destruct x as [| p | p]; try lia.
  pose proof (ctz_pos_nonneg p) as H0. pose proof (ctz_pos_divides p) as Hd.
  split; [exact H0 |].
  destruct (Z_le_gt_dec (ctz_pos p) 31) as [Hle | Hgt]; [exact Hle |].
  assert (2 ^ 32 <= 2 ^ ctz_pos p) by (apply Z.pow_le_mono_r; lia). lia.
Qed.

(** ** [setup_mmu_cfg]: when it returns, and what it writes *)

Lemma vass_positive (max_va : Z) :
  is_u32 max_va -> max_va <> UINT32_MAX ->
  0 < uintptr_t (max_va + 1) <= UINT32_MAX.
Proof.
  unfold is_u32, UINT32_MAX, uintptr_t, u32. intros H Hne.
  rewrite Z.mod_small by lia. lia.
Qed.

Lemma builtin_ctzll_defined (x : Z) (s : cpu) :
  0 < x <= UINT32_MAX -> builtin_ctzll x s = Ret (ctz_of x) s.
Proof.
  unfold UINT32_MAX. intros Hx. unfold builtin_ctzll, ctz_of, u64.
  rewrite Z.mod_small by lia. destruct x; try lia. reflexivity.
Qed.

Lemma assert_passes (bc : build_cfg) (c : M bool) (s : cpu) :
  (ENABLE_ASSERTIONS bc = true -> c s = Ret true s) ->
  assert bc c s = Ret tt s.
Proof.
  intros H. unfold assert. destruct (ENABLE_ASSERTIONS bc); [| reflexivity].
  unfold mbind, M_bind. rewrite H by reflexivity. reflexivity.
Qed.

Lemma assert_fails (bc : build_cfg) (c : M bool) (s : cpu) :
  ENABLE_ASSERTIONS bc = true -> c s = Ret false s ->
  assert bc c s = AssertFail.
Proof.
  intros He H. unfold assert. rewrite He.
  unfold mbind, M_bind. rewrite H. reflexivity.
Qed.

Lemma store_param_fits (params : list Z) (i : nat) (v : Z) (s : cpu) :
  (i < length params)%nat ->
  store_param params i v s = Ret (<[i := v]> params) s.
Proof. intros H. unfold store_param. rewrite decide_True by exact H. reflexivity. Qed.

Lemma IS_IN_SECURE_eq (hdr : arch_hdr) (s : cpu) :
  IS_IN_SECURE hdr s = Ret (in_secure hdr s) s.
Proof. reflexivity. Qed.

Lemma write_image_fits (hdr : arch_hdr) (bc : build_cfg) (params : list Z)
    (flags base_table max_va : Z) (s : cpu) :
  params_fit hdr params ->
  write_image hdr bc params flags base_table max_va s
  = Ret (params_image hdr bc params flags base_table max_va) s.
Proof.
  intros (Hm & Ht & Hb). unfold write_image, params_image, mbind, M_bind.
  rewrite store_param_fits by exact Hm.
  rewrite store_param_fits by (rewrite length_insert; exact Ht).
  rewrite store_param_fits by (rewrite !length_insert; exact Hb).
  reflexivity.
Qed.

Lemma store_param_outcome (params : list Z) (i : nat) (v : Z) (s : cpu) :
  store_param params i v s = Ret (<[i := v]> params) s \/
  store_param params i v s = Undef store_out_of_bounds.
Proof. unfold store_param. destruct (decide _); [left | right]; reflexivity. Qed.

Lemma write_image_outcome (hdr : arch_hdr) (bc : build_cfg) (params : list Z)
    (flags base_table max_va : Z) (s : cpu) :
  write_image hdr bc params flags base_table max_va s
  = Ret (params_image hdr bc params flags base_table max_va) s \/
  write_image hdr bc params flags base_table max_va s
  = Undef store_out_of_bounds.
Proof.
  unfold write_image, params_image, mbind, M_bind.
  destruct (store_param_outcome params (MMU_CFG_MAIR hdr) (mair_image hdr) s)
    as [-> | ->]; [| right; reflexivity].
  match goal with
  | |- context [store_param ?p ?i ?v s] =>
      destruct (store_param_outcome p i v s) as [-> | ->];
        [| right; reflexivity]
  end.
  apply store_param_outcome.
Qed.

(** Past its assertions, [setup_mmu_cfg] computes the image and stores it. *)
Lemma setup_mmu_cfg_passes (hdr : arch_hdr) (bc : build_cfg)
    (params : list Z) (flags base_table max_pa max_va xlat_regime : Z)
    (s : cpu) :
  is_u32 max_va ->
  asserts_pass hdr bc s max_va ->
  setup_mmu_cfg hdr bc params flags base_table max_pa max_va xlat_regime s
  = write_image hdr bc params flags base_table max_va s.
Proof.
  intros Hva Hpre.
  unfold setup_mmu_cfg, write_image.
  unfold mbind at 1. unfold M_bind at 1.
  rewrite assert_passes
    by (intros He; rewrite IS_IN_SECURE_eq; f_equal; apply (Hpre He)).
  unfold mbind at 1. unfold M_bind at 1.
  assert (Hsz :
    (if max_va =? UINT32_MAX
     then mret (u32 (Z.lor (u32 (TTBCR_EAE_BIT hdr)) (TTBCR_EPD1_BIT hdr)))
     else
       assert bc
         (mret (CHECK_VIRT_ADDR_SPACE_SIZE hdr (uintptr_t (max_va + 1))));;
       tz ← builtin_ctzll (uintptr_t (max_va + 1));
       mret (u32 (Z.lor
                    (u32 (Z.lor (u32 (TTBCR_EAE_BIT hdr)) (TTBCR_EPD1_BIT hdr)))
                    (u32 (32 - tz))))) s
    = Ret (ttbcr_sized hdr max_va) s).
  { unfold ttbcr_sized. destruct (Z.eqb_spec max_va UINT32_MAX) as [E | E];
      [reflexivity |].
    unfold mbind at 1. unfold M_bind at 1.
    rewrite assert_passes
      by (intros He; unfold mret, M_ret; f_equal; apply (Hpre He); exact E).
    unfold mbind, M_bind.
    rewrite builtin_ctzll_defined by (apply vass_positive; assumption).
    reflexivity. }
  rewrite Hsz.
  unfold ttbcr_image, walk_nc, walk_wbwa.
  destruct (negb (Z.land flags (XLAT_TABLE_NC hdr) =? 0)); reflexivity.
Qed.

Lemma setup_mmu_cfg_returns (hdr : arch_hdr) (bc : build_cfg)
    (params : list Z) (flags base_table max_pa max_va xlat_regime : Z)
    (s : cpu) :
  is_u32 max_va ->
  asserts_pass hdr bc s max_va ->
  params_fit hdr params ->
  setup_mmu_cfg hdr bc params flags base_table max_pa max_va xlat_regime s
  = Ret (params_image hdr bc params flags base_table max_va) s.
Proof.
  intros Hva Hpre Hfit.
  rewrite setup_mmu_cfg_passes by assumption.
  apply write_image_fits. exact Hfit.
Qed.

Lemma u64_of_u32 (z : Z) : is_u32 z -> u64 (uintptr_t z) = z.
Proof.
  unfold is_u32, UINT32_MAX, u64, uintptr_t, u32. intros H.
  rewrite (Z.mod_small z (2 ^ 32)) by lia. apply Z.mod_small. lia.
Qed.

Lemma ARM_ARCH_AT_LEAST_spec (bc : build_cfg) (maj min : Z) :
  ARM_ARCH_AT_LEAST bc maj min = true <->
  maj < ARM_ARCH_MAJOR bc \/ (ARM_ARCH_MAJOR bc = maj /\ min <= ARM_ARCH_MINOR bc).
Proof.
  unfold ARM_ARCH_AT_LEAST.
  rewrite orb_true_iff, andb_true_iff, Z.ltb_lt, Z.eqb_eq, Z.leb_le. tauto.
Qed.

(** ** GranuleCapabilityQuery *)

(** C5. [xlat_arch_is_granule_size_supported] answers 1 exactly for a size
    of 4096 bytes (and 0 for every other size), and
    [xlat_arch_get_max_supported_granule_size] is 4096. *)
Theorem granule_supported_iff_4096 (s : Z) :
  (xlat_arch_is_granule_size_supported aarch32_hdr s = 1 <-> s = 4096) /\
  (s <> 4096 -> xlat_arch_is_granule_size_supported aarch32_hdr s = 0) /\
  xlat_arch_get_max_supported_granule_size aarch32_hdr = 4096.
Proof.
  unfold xlat_arch_is_granule_size_supported,
    xlat_arch_get_max_supported_granule_size. simpl PAGE_SIZE_4KB.
  destruct (Z.eqb_spec s 4096) as [E | E]; repeat split; intros; try lia.
Qed.

(** ** ExecuteNeverAttribute *)

(** C9. [xlat_arch_regime_get_xn_desc] returns the same descriptor bits for
    any two regimes, whatever the header constants are; with the
    architectural constants the value is bit 54 alone. *)
Theorem xn_desc_regime_independent (hdr : arch_hdr) (r1 r2 : Z) :
  xlat_arch_regime_get_xn_desc hdr r1 = xlat_arch_regime_get_xn_desc hdr r2 /\
  xlat_arch_regime_get_xn_desc aarch32_hdr r1 = 2 ^ 54.
Proof. split; reflexivity. Qed.

(** ** TLBInvalidator *)

(** C2. [xlat_arch_tlbi_va_sync] always returns, and what it adds to the
    trace is exactly: bpiallis, then dsbish, then isb.  The registers are
    left as they were. *)
Theorem tlbi_va_sync_trace (s : cpu) :
  xlat_arch_tlbi_va_sync s
  = Ret tt {| scr := scr s; sctlr := sctlr s;
              trace := trace s ++ [bpiallis_op; dsbish_op; isb_op] |}.
Proof.
  unfold xlat_arch_tlbi_va_sync, bpiallis, dsbish, isb, emit, issue,
    mbind, M_bind. simpl.
  rewrite <- !app_assoc. reflexivity.
Qed.

(** C3. [xlat_arch_tlbi_va] always returns, and what it adds to the trace
    is exactly: dsbishst, then tlbimvaais on the address operand.  So the
    store barrier comes strictly before the invalidation, the invalidation
    is the inner-shareable broadcast one, and nothing (in particular no
    dsbish and no isb) follows it. *)
Theorem tlbi_va_trace (hdr : arch_hdr) (va xlat_regime : Z) (s : cpu) :
  xlat_arch_tlbi_va hdr va xlat_regime s
  = Ret tt {| scr := scr s; sctlr := sctlr s;
              trace := trace s
                       ++ [dsbishst_op; tlbimvaais_op (TLBI_ADDR hdr va)] |}.
Proof.
  unfold xlat_arch_tlbi_va, dsbishst, tlbimvaais, emit, issue,
    mbind, M_bind. simpl.
  rewrite <- !app_assoc. reflexivity.
Qed.

(** ** MmuConfigBuilder *)

(** C10. The outcome of [setup_mmu_cfg] (the three words written, or the
    failed assertion) is the same for any two values of [max_pa] and any
    two values of [xlat_regime], all other arguments being equal. *)
Theorem setup_mmu_cfg_ignores_pa_and_regime (hdr : arch_hdr) (bc : build_cfg)
    (params : list Z) (flags base_table max_va : Z)
    (max_pa1 max_pa2 regime1 regime2 : Z) (s : cpu) :
  setup_mmu_cfg hdr bc params flags base_table max_pa1 max_va regime1 s
  = setup_mmu_cfg hdr bc params flags base_table max_pa2 max_va regime2 s.
Proof. reflexivity. Qed.

(** C6. When the call returns, the word at [MMU_CFG_TTBR0] is the base-table
    pointer, with [TTBR_CNP_BIT] or-ed in exactly when the build targets
    ARMv8.2 or later, and with nothing else changed. *)
Theorem ttbr0_is_base_table (hdr : arch_hdr) (bc : build_cfg)
    (params : list Z) (flags base_table max_pa max_va xlat_regime : Z)
    (s : cpu) :
  is_u32 base_table ->
  is_u32 max_va ->
  asserts_pass hdr bc s max_va ->
  params_fit hdr params ->
  exists params',
    setup_mmu_cfg hdr bc params flags base_table max_pa max_va xlat_regime s
    = Ret params' s /\
    params' !! MMU_CFG_TTBR0 hdr
    = Some (if ARM_ARCH_AT_LEAST bc 8 2
            then u64 (Z.lor base_table (TTBR_CNP_BIT hdr))
            else base_table) /\
    (ARM_ARCH_AT_LEAST bc 8 2 = true <->
     8 < ARM_ARCH_MAJOR bc \/ (ARM_ARCH_MAJOR bc = 8 /\ 2 <= ARM_ARCH_MINOR bc)).
Proof.
  intros Hb Hva Hpre Hfit.
  eexists. split; [apply setup_mmu_cfg_returns; assumption |].
  split; [| apply ARM_ARCH_AT_LEAST_spec].
  unfold params_image.
  rewrite list_lookup_insert_eq
    by (rewrite !length_insert; apply Hfit).
  unfold ttbr0_image. rewrite (u64_of_u32 _ Hb). reflexivity.
Qed.

(** Scenario A of the spec, on a build older than ARMv8.2. *)
Lemma ttbr0_is_base_table_witness :
  exists params',
    setup_mmu_cfg aarch32_hdr armv8_0_debug [0; 0; 0] 0 0x80000000
      (2 ^ 32 - 1) 0xFFFFFFFF 1 secure_cpu
    = Ret params' secure_cpu /\
    params' !! MMU_CFG_TTBR0 aarch32_hdr = Some 0x80000000 /\
    (ARM_ARCH_AT_LEAST armv8_0_debug 8 2 = true <->
     8 < ARM_ARCH_MAJOR armv8_0_debug \/
     (ARM_ARCH_MAJOR armv8_0_debug = 8 /\ 2 <= ARM_ARCH_MINOR armv8_0_debug)).
Proof.
  apply (ttbr0_is_base_table aarch32_hdr armv8_0_debug [0; 0; 0] 0 0x80000000
           (2 ^ 32 - 1) 0xFFFFFFFF 1 secure_cpu).
  - unfold is_u32, UINT32_MAX. lia.
  - unfold is_u32, UINT32_MAX. lia.
  - intros _. split; [reflexivity | intros H; exfalso; apply H; reflexivity].
  - unfold params_fit. simpl. lia.
Defined.

(** ** The attribute table *)

Lemma aarch32_attr_table_layout : attr_table_layout aarch32_hdr.
Proof. split; simpl; lia. Qed.

Lemma aarch32_params_slots_apart : params_slots_apart aarch32_hdr.
Proof. repeat split; simpl; lia. Qed.

Lemma params_image_mair (hdr : arch_hdr) (bc : build_cfg) (params : list Z)
    (flags base_table max_va : Z) :
  params_fit hdr params -> params_slots_apart hdr ->
  params_image hdr bc params flags base_table max_va !! MMU_CFG_MAIR hdr
  = Some (mair_image hdr).
Proof.
  intros (Hm & _ & _) (H1 & H2 & _). unfold params_image.
  rewrite list_lookup_insert_ne by congruence.
  rewrite list_lookup_insert_ne by congruence.
  apply list_lookup_insert_eq. exact Hm.
Qed.

Lemma params_image_tcr (hdr : arch_hdr) (bc : build_cfg) (params : list Z)
    (flags base_table max_va : Z) :
  params_fit hdr params -> params_slots_apart hdr ->
  params_image hdr bc params flags base_table max_va !! MMU_CFG_TCR hdr
  = Some (u64 (ttbcr_image hdr flags max_va)).
Proof.
  intros (_ & Ht & _) (_ & _ & H3). unfold params_image.
  rewrite list_lookup_insert_ne by congruence.
  apply list_lookup_insert_eq. rewrite length_insert. exact Ht.
Qed.

Lemma byte_testbit_high (a j : Z) :
  0 <= a < 256 -> 8 <= j -> Z.testbit a j = false.
Proof.
  intros Ha Hj. rewrite <- (Z.mod_small a (2 ^ 8)) by (change (2 ^ 8) with 256; lia).
  apply Z.mod_pow2_bits_high. lia.
Qed.

(** A byte placed at one entry shows no bit at a different entry. *)
Lemma other_entry_bit (a n d : Z) :
  0 <= a < 256 -> 0 <= n < 8 -> d <> 0 -> Z.testbit a (n + 8 * d) = false.
Proof.
  intros Ha Hn Hd. destruct (Z_lt_le_dec d 0).
  - apply Z.testbit_neg_r. lia.
  - apply byte_testbit_high; [exact Ha | lia].
Qed.

Lemma MAIR0_ATTR_SET_bit (attr index n : Z) :
  0 <= n ->
  Z.testbit (MAIR0_ATTR_SET attr index) n = Z.testbit attr (n - 8 * index).
Proof.
  intros Hn. unfold MAIR0_ATTR_SET. rewrite Z.shiftl_spec by exact Hn.
  rewrite Z.shiftl_mul_pow2 by lia. f_equal. change (2 ^ 3) with 8. lia.
Qed.

Lemma mair_image_bit (hdr : arch_hdr) (n : Z) :
  0 <= n ->
  Z.testbit (mair_image hdr) n
  = (n <? 64)
    && (Z.testbit (ATTR_DEVICE hdr) (n - 8 * ATTR_DEVICE_INDEX hdr)
        || Z.testbit (ATTR_IWBWA_OWBWA_NTR hdr)
             (n - 8 * ATTR_IWBWA_OWBWA_NTR_INDEX hdr)
        || Z.testbit (ATTR_NON_CACHEABLE hdr)
             (n - 8 * ATTR_NON_CACHEABLE_INDEX hdr)).
Proof.
  intros Hn. unfold mair_image, u64.
  repeat (rewrite ?Z.testbit_mod_pow2, ?Z.lor_spec by lia).
  rewrite !MAIR0_ATTR_SET_bit by exact Hn.
  destruct (n <? 64); simpl; reflexivity.
Qed.

Lemma mair_attr_bit (w i n : Z) :
  0 <= n ->
  Z.testbit (mair_attr w i) n = Z.testbit w (n + 8 * i) && (n <? 8).
Proof.
  intros Hn. unfold mair_attr. change 0xFF with (Z.ones 8).
  rewrite Z.land_spec, Z.shiftr_spec by exact Hn.
  rewrite Z.testbit_ones_nonneg by lia. reflexivity.
Qed.

(** Reading back entry [i] of the image, for a byte [a] stored at [i] and
    bytes [b], [c] stored elsewhere. *)
Lemma entry_bits (a b c i j k n : Z) :
  0 <= a < 256 -> 0 <= b < 256 -> 0 <= c < 256 ->
  0 <= i < 8 -> i <> j -> i <> k -> 0 <= n ->
  (n + 8 * i <? 64)
  && (Z.testbit a (n + 8 * i - 8 * i) || Z.testbit b (n + 8 * i - 8 * j)
      || Z.testbit c (n + 8 * i - 8 * k))
  && (n <? 8)
  = Z.testbit a n.
Proof.
  intros Ha Hb Hc Hi Hj Hk Hn.
  replace (n + 8 * i - 8 * i) with n by lia.
  destruct (Z.ltb_spec n 8) as [Hlt | Hge].
  - replace (n + 8 * i - 8 * j) with (n + 8 * (i - j)) by lia.
    replace (n + 8 * i - 8 * k) with (n + 8 * (i - k)) by lia.
    rewrite (other_entry_bit b), (other_entry_bit c) by lia.
    rewrite !orb_false_r, andb_true_r.
    destruct (Z.ltb_spec (n + 8 * i) 64); [reflexivity | lia].
  - rewrite andb_false_r. symmetry. apply byte_testbit_high; lia.
Qed.

(** C8. When the call returns, the word at [MMU_CFG_MAIR] is [mair_image],
    an expression of the header constants alone (no argument of the call
    occurs in it): the or of the three attributes, each shifted to its
    index.  Read back as 8-bit entries, entry [ATTR_DEVICE_INDEX] is
    [ATTR_DEVICE], entry [ATTR_IWBWA_OWBWA_NTR_INDEX] is
    [ATTR_IWBWA_OWBWA_NTR], entry [ATTR_NON_CACHEABLE_INDEX] is
    [ATTR_NON_CACHEABLE], and every other entry is 0. *)
Theorem mair_packs_three_attributes (hdr : arch_hdr) (bc : build_cfg)
    (params : list Z) (flags base_table max_pa max_va xlat_regime : Z)
    (s : cpu) :
  attr_table_layout hdr ->
  params_slots_apart hdr ->
  is_u32 max_va ->
  asserts_pass hdr bc s max_va ->
  params_fit hdr params ->
  exists params',
    setup_mmu_cfg hdr bc params flags base_table max_pa max_va xlat_regime s
    = Ret params' s /\
    params' !! MMU_CFG_MAIR hdr = Some (mair_image hdr) /\
    mair_image hdr
    = Z.lor (Z.lor (MAIR0_ATTR_SET (ATTR_DEVICE hdr) (ATTR_DEVICE_INDEX hdr))
                   (MAIR0_ATTR_SET (ATTR_IWBWA_OWBWA_NTR hdr)
                                   (ATTR_IWBWA_OWBWA_NTR_INDEX hdr)))
            (MAIR0_ATTR_SET (ATTR_NON_CACHEABLE hdr)
                            (ATTR_NON_CACHEABLE_INDEX hdr)) /\
    mair_attr (mair_image hdr) (ATTR_DEVICE_INDEX hdr) = ATTR_DEVICE hdr /\
    mair_attr (mair_image hdr) (ATTR_IWBWA_OWBWA_NTR_INDEX hdr)
    = ATTR_IWBWA_OWBWA_NTR hdr /\
    mair_attr (mair_image hdr) (ATTR_NON_CACHEABLE_INDEX hdr)
    = ATTR_NON_CACHEABLE hdr /\
    (forall i : Z,
       0 <= i -> i <> ATTR_DEVICE_INDEX hdr ->
       i <> ATTR_IWBWA_OWBWA_NTR_INDEX hdr ->
       i <> ATTR_NON_CACHEABLE_INDEX hdr ->
       mair_attr (mair_image hdr) i = 0).
Proof.
  intros [Hd Hw Hn Hdi Hwi Hni Hdw Hdn Hwn] Hslots Hva Hpre Hfit.
  eexists. split; [apply setup_mmu_cfg_returns; assumption |].
  split; [apply params_image_mair; assumption |].
  split; [| split; [| split; [| split]]].
  - apply Z.bits_inj'. intros n Hn0.
    rewrite mair_image_bit, !Z.lor_spec, !MAIR0_ATTR_SET_bit by exact Hn0.
    destruct (Z.ltb_spec n 64) as [Hlt | Hge]; [reflexivity |].
    simpl. rewrite !byte_testbit_high by lia. reflexivity.
  - apply Z.bits_inj'. intros n Hn0.
    rewrite mair_attr_bit, mair_image_bit by lia.
    apply entry_bits; lia.
  - apply Z.bits_inj'. intros n Hn0.
    rewrite mair_attr_bit, mair_image_bit by lia.
    rewrite (orb_comm (Z.testbit (ATTR_DEVICE hdr) _)).
    apply entry_bits; lia.
  - apply Z.bits_inj'. intros n Hn0.
    rewrite mair_attr_bit, mair_image_bit by lia.
    rewrite orb_comm, orb_assoc.
    apply entry_bits; lia.
  - intros i Hi H1 H2 H3. apply Z.bits_inj'. intros n Hn0.
    rewrite mair_attr_bit, mair_image_bit, Z.bits_0 by lia.
    destruct (Z.ltb_spec n 8) as [Hlt | Hge]; [| apply andb_false_r].
    replace (n + 8 * i - 8 * ATTR_DEVICE_INDEX hdr)
      with (n + 8 * (i - ATTR_DEVICE_INDEX hdr)) by lia.
    replace (n + 8 * i - 8 * ATTR_IWBWA_OWBWA_NTR_INDEX hdr)
      with (n + 8 * (i - ATTR_IWBWA_OWBWA_NTR_INDEX hdr)) by lia.
    replace (n + 8 * i - 8 * ATTR_NON_CACHEABLE_INDEX hdr)
      with (n + 8 * (i - ATTR_NON_CACHEABLE_INDEX hdr)) by lia.
    rewrite !other_entry_bit by lia.
    rewrite andb_false_r. reflexivity.
Qed.

Example mair_image_aarch32 : mair_image aarch32_hdr = 0x4404FF.
Proof. reflexivity. Qed.

(** Scenario A of the spec: the attribute table it produces. *)
Lemma mair_packs_three_attributes_witness :
  exists params',
    setup_mmu_cfg aarch32_hdr armv8_0_debug [0; 0; 0] 0 0x80000000
      (2 ^ 32 - 1) 0xFFFFFFFF 1 secure_cpu
    = Ret params' secure_cpu /\
    params' !! 0%nat = Some 0x4404FF /\
    0x4404FF = Z.lor (Z.lor (Z.shiftl 0x04 8) 0xFF) (Z.shiftl 0x44 16) /\
    mair_attr 0x4404FF 1 = 0x04 /\
    mair_attr 0x4404FF 0 = 0xFF /\
    mair_attr 0x4404FF 2 = 0x44 /\
    (forall i : Z,
       0 <= i -> i <> 1 -> i <> 0 -> i <> 2 -> mair_attr 0x4404FF i = 0).
Proof.
  apply (mair_packs_three_attributes aarch32_hdr armv8_0_debug [0; 0; 0] 0
           0x80000000 (2 ^ 32 - 1) 0xFFFFFFFF 1 secure_cpu).
  - exact aarch32_attr_table_layout.
  - exact aarch32_params_slots_apart.
  - unfold is_u32, UINT32_MAX. lia.
  - intros _. split; [reflexivity | intros H; exfalso; apply H; reflexivity].
  - unfold params_fit. simpl. lia.
Defined.

(** ** Sizes of the virtual address space *)

Lemma u32_small (z : Z) : is_u32 z -> u32 z = z.
Proof. unfold is_u32, UINT32_MAX, u32. intros H. apply Z.mod_small. lia. Qed.

Lemma u64_small (z : Z) : is_u32 z -> u64 z = z.
Proof. unfold is_u32, UINT32_MAX, u64. intros H. apply Z.mod_small. lia. Qed.

Lemma land_pow2_pred (k : Z) : 0 <= k -> Z.land (2 ^ k) (2 ^ k - 1) = 0.
Proof.
  intros Hk. rewrite Z.sub_1_r, <- Z.ones_equiv, Z.land_ones by exact Hk.
  apply Z_mod_same_full.
Qed.

(** The bit test [x & (x - 1) == 0] finds exactly the powers of two among
    the positive numbers. *)
Lemma land_pred_zero_pow2 (v : Z) :
  0 < v -> Z.land v (v - 1) = 0 -> v = 2 ^ Z.log2 v.
Proof.
  intros Hv Hz.
  destruct (Z.log2_spec v Hv) as [Hlo Hhi].
  destruct (Z.eq_dec v (2 ^ Z.log2 v)) as [E | Hne]; [exact E | exfalso].
  assert (Hpos : 0 < 2 ^ Z.log2 v)
    by (apply Z.pow_pos_nonneg; [lia | apply Z.log2_nonneg]).
  assert (Hk : Z.log2 (v - 1) = Z.log2 v)
    by (apply Z.log2_unique; [apply Z.log2_nonneg | lia]).
  assert (Hbit : Z.testbit (Z.land v (v - 1)) (Z.log2 v) = true).
  { rewrite Z.land_spec, Z.bit_log2 by exact Hv.
    rewrite <- Hk. rewrite Z.bit_log2 by lia. reflexivity. }
  rewrite Hz, Z.bits_0 in Hbit. discriminate.
Qed.

Lemma IS_POWER_OF_TWO_spec (v : Z) :
  0 < v <= UINT32_MAX ->
  (IS_POWER_OF_TWO v = true <-> exists k, 0 <= k /\ v = 2 ^ k).
Proof.
  intros Hv. unfold IS_POWER_OF_TWO, uintptr_t.
  rewrite u32_small by (unfold is_u32; lia). rewrite Z.eqb_eq. split.
  - intros Hz. exists (Z.log2 v).
    split; [apply Z.log2_nonneg | apply land_pred_zero_pow2; [lia | exact Hz]].
  - intros (k & Hk & ->). apply land_pow2_pred. exact Hk.
Qed.

(** On AArch32 the accepted sizes are the powers of two from 2^25 (T0SZ = 7)
    up; a [uintptr_t] cannot hold 2^32, which is why [setup_mmu_cfg] treats
    [max_va = UINT32_MAX] apart. *)
Lemma CHECK_VIRT_ADDR_SPACE_SIZE_spec (v : Z) :
  is_u32 v ->
  (CHECK_VIRT_ADDR_SPACE_SIZE aarch32_hdr v = true <->
   exists k, 25 <= k <= 31 /\ v = 2 ^ k).
Proof.
  intros Hv. unfold CHECK_VIRT_ADDR_SPACE_SIZE.
  rewrite u64_small by exact Hv.
  change (MIN_VIRT_ADDR_SPACE_SIZE aarch32_hdr) with (2 ^ 25).
  change (MAX_VIRT_ADDR_SPACE_SIZE aarch32_hdr) with (2 ^ 32).
  rewrite !andb_true_iff, !Z.leb_le.
  unfold is_u32, UINT32_MAX in Hv. split.
  - intros [[Hlo Hhi] Hp].
    apply IS_POWER_OF_TWO_spec in Hp; [| unfold UINT32_MAX; lia].
    destruct Hp as (k & Hk & ->). exists k. split; [| reflexivity].
    split.
    + apply (Z.pow_le_mono_r_iff 2); lia.
    + assert (k < 32); [| lia]. apply (Z.pow_lt_mono_r_iff 2); lia.
  - intros (k & Hk & ->).
    assert (2 ^ 25 <= 2 ^ k) by (apply Z.pow_le_mono_r; lia).
    repeat split; try lia.
    apply IS_POWER_OF_TWO_spec; [unfold UINT32_MAX; lia |].
    exists k. split; [lia | reflexivity].
Qed.

(** ** Fields of the translation-control word *)

Lemma land_u32 (a m : Z) : 0 <= m < 2 ^ 32 -> Z.land (u32 a) m = Z.land a m.
Proof.
  intros Hm. unfold u32. rewrite <- Z.land_ones, <- Z.land_assoc by lia.
  f_equal. rewrite Z.land_comm, Z.land_ones by lia. apply Z.mod_small. exact Hm.
Qed.

Lemma land_u64 (a m : Z) : 0 <= m < 2 ^ 32 -> Z.land (u64 a) m = Z.land a m.
Proof.
  intros Hm. unfold u64. rewrite <- Z.land_ones, <- Z.land_assoc by lia.
  f_equal. rewrite Z.land_comm, Z.land_ones by lia. apply Z.mod_small. lia.
Qed.

Lemma land_ttbcr_sized (hdr : arch_hdr) (max_va m : Z) :
  0 <= m < 2 ^ 32 ->
  Z.land (ttbcr_sized hdr max_va) m
  = Z.lor (Z.lor (Z.land (TTBCR_EAE_BIT hdr) m) (Z.land (TTBCR_EPD1_BIT hdr) m))
          (if max_va =? UINT32_MAX then 0
           else Z.land (32 - ctz_of (uintptr_t (max_va + 1))) m).
Proof.
  intros Hm. unfold ttbcr_sized. destruct (max_va =? UINT32_MAX).
  - rewrite Z.lor_0_r, land_u32, Z.land_lor_distr_l, land_u32 by exact Hm.
    reflexivity.
  - rewrite land_u32, Z.land_lor_distr_l, !land_u32 by exact Hm.
    rewrite Z.land_lor_distr_l, land_u32 by exact Hm. reflexivity.
Qed.

Lemma land_ttbcr_image (hdr : arch_hdr) (flags max_va m : Z) :
  0 <= m < 2 ^ 32 ->
  Z.land (u64 (ttbcr_image hdr flags max_va)) m
  = Z.lor (Z.land (ttbcr_sized hdr max_va) m)
          (Z.land (if negb (Z.land flags (XLAT_TABLE_NC hdr) =? 0)
                   then walk_nc hdr else walk_wbwa hdr) m).
Proof.
  intros Hm. rewrite land_u64 by exact Hm. unfold ttbcr_image.
  destruct (negb (Z.land flags (XLAT_TABLE_NC hdr) =? 0));
    rewrite land_u32, Z.land_lor_distr_l by exact Hm; reflexivity.
Qed.

Lemma ttbcr_t0sz_land (w : Z) : ttbcr_t0sz w = Z.land w 7.
Proof. unfold ttbcr_t0sz, TTBCR_T0SZ_SHIFT. rewrite Z.shiftr_0_r. reflexivity. Qed.

(** The truncation field of the image holds the low three bits of
    [32 - ctz(size)], or 0 when the space has the full native width. *)
Lemma t0sz_of_image (flags max_va : Z) :
  ttbcr_t0sz (u64 (ttbcr_image aarch32_hdr flags max_va))
  = if max_va =? UINT32_MAX then 0
    else (32 - ctz_of (uintptr_t (max_va + 1))) mod 8.
Proof.
  rewrite ttbcr_t0sz_land, land_ttbcr_image, land_ttbcr_sized by lia.
  change (Z.land (TTBCR_EAE_BIT aarch32_hdr) 7) with 0.
  change (Z.land (TTBCR_EPD1_BIT aarch32_hdr) 7) with 0.
  assert (Hw : Z.land (if negb (Z.land flags (XLAT_TABLE_NC aarch32_hdr) =? 0)
                       then walk_nc aarch32_hdr else walk_wbwa aarch32_hdr) 7
               = 0)
    by (destruct (negb _); reflexivity).
  rewrite Hw, Z.lor_0_r, Z.lor_0_l.
  destruct (max_va =? UINT32_MAX); [reflexivity |].
  change 7 with (Z.ones 3). rewrite Z.land_ones by lia. reflexivity.
Qed.

Lemma small_land_walk0 (t : Z) : 0 <= t < 256 -> Z.land t TTBCR_WALK0_MASK = 0.
Proof.
  intros Ht. apply Z.bits_inj'. intros n Hn.
  rewrite Z.land_spec, Z.bits_0.
  change TTBCR_WALK0_MASK with (Z.shiftl 63 8).
  rewrite Z.shiftl_spec by exact Hn.
  destruct (Z_lt_le_dec n 8).
  - rewrite (Z.testbit_neg_r 63) by lia. apply andb_false_r.
  - rewrite byte_testbit_high by lia. reflexivity.
Qed.

(** The walk-attribute field of the image is the encoding the flag selects;
    the size field never reaches it. *)
Lemma walk0_of_image (flags max_va : Z) :
  is_u32 max_va ->
  ttbcr_walk0 (u64 (ttbcr_image aarch32_hdr flags max_va))
  = if negb (Z.land flags (XLAT_TABLE_NC aarch32_hdr) =? 0)
    then walk_nc aarch32_hdr else walk_wbwa aarch32_hdr.
Proof.
  intros Hva. unfold ttbcr_walk0.
  rewrite land_ttbcr_image, land_ttbcr_sized
    by (unfold TTBCR_WALK0_MASK; lia).
  change (Z.land (TTBCR_EAE_BIT aarch32_hdr) TTBCR_WALK0_MASK) with 0.
  change (Z.land (TTBCR_EPD1_BIT aarch32_hdr) TTBCR_WALK0_MASK) with 0.
  assert (Hsz : (if max_va =? UINT32_MAX then 0
                 else Z.land (32 - ctz_of (uintptr_t (max_va + 1)))
                        TTBCR_WALK0_MASK) = 0).
  { destruct (Z.eqb_spec max_va UINT32_MAX) as [E | E]; [reflexivity |].
    apply small_land_walk0.
    pose proof (ctz_of_bounds _ (vass_positive max_va Hva E)). lia. }
  rewrite Hsz, !Z.lor_0_l.
  destruct (negb _); reflexivity.
Qed.

(** C1 (amended). For a virtual address space of size [2 ^ k] with
    [25 <= k <= 32] (the sizes [CHECK_VIRT_ADDR_SPACE_SIZE] accepts, and the
    full 32-bit space), called in the secure state, [setup_mmu_cfg]
    returns and the T0SZ field of the word at [MMU_CFG_TCR] is [32 - k]
    when [k < 32] and 0 when [max_va = 0xFFFFFFFF]. *)
Theorem t0sz_of_power_of_two (bc : build_cfg) (params : list Z)
    (flags base_table max_pa max_va xlat_regime : Z) (s : cpu) (k : Z) :
  25 <= k <= 32 ->
  max_va + 1 = 2 ^ k ->
  (ENABLE_ASSERTIONS bc = true -> in_secure aarch32_hdr s = true) ->
  params_fit aarch32_hdr params ->
  exists params' tcr,
    setup_mmu_cfg aarch32_hdr bc params flags base_table max_pa max_va
      xlat_regime s
    = Ret params' s /\
    params' !! MMU_CFG_TCR aarch32_hdr = Some tcr /\
    ttbcr_t0sz tcr = if k <? 32 then 32 - k else 0.
Proof.
  intros Hk Hv Hsec Hfit.
  assert (Hlo : 2 ^ 25 <= 2 ^ k) by (apply Z.pow_le_mono_r; lia).
  assert (Hhi : 2 ^ k <= 2 ^ 32) by (apply Z.pow_le_mono_r; lia).
  assert (Hva : is_u32 max_va) by (unfold is_u32, UINT32_MAX; lia).
  assert (Hfull : max_va = UINT32_MAX <-> k = 32).
  { unfold UINT32_MAX. split; intros E.
    - apply (Z.pow_inj_r 2); lia.
    - subst k. lia. }
  assert (Hsize : k <> 32 -> uintptr_t (max_va + 1) = 2 ^ k).
  { intros Hne. rewrite Hv. apply u32_small. unfold is_u32, UINT32_MAX.
    assert (2 ^ k < 2 ^ 32) by (apply Z.pow_lt_mono_r; lia). lia. }
  exists (params_image aarch32_hdr bc params flags base_table max_va),
         (u64 (ttbcr_image aarch32_hdr flags max_va)).
  split; [| split].
  - apply setup_mmu_cfg_returns; [exact Hva | | exact Hfit].
    intros He. split; [exact (Hsec He) |]. intros Hne.
    assert (Hk32 : k <> 32) by tauto.
    rewrite (Hsize Hk32). apply CHECK_VIRT_ADDR_SPACE_SIZE_spec.
    + rewrite <- (Hsize Hk32). pose proof (vass_positive _ Hva Hne).
      unfold is_u32. lia.
    + exists k. split; [lia | reflexivity].
  - apply params_image_tcr; [exact Hfit | exact aarch32_params_slots_apart].
  - rewrite t0sz_of_image.
    destruct (Z.eqb_spec max_va UINT32_MAX) as [E | E].
    + apply Hfull in E. subst k. reflexivity.
    + assert (Hk32 : k <> 32) by tauto.
      rewrite (Hsize Hk32), ctz_of_pow2 by lia.
      destruct (Z.ltb_spec k 32); [| lia].
      apply Z.mod_small. lia.
Qed.

(** Scenario B of the spec: a 1 GiB space gives T0SZ = 2. *)
Lemma t0sz_of_power_of_two_witness :
  exists params' tcr,
    setup_mmu_cfg aarch32_hdr armv8_0_debug [0; 0; 0] 0 0x80000000
      (2 ^ 32 - 1) 0x3FFFFFFF 1 secure_cpu
    = Ret params' secure_cpu /\
    params' !! MMU_CFG_TCR aarch32_hdr = Some tcr /\
    ttbcr_t0sz tcr = 2.
Proof.
  apply (t0sz_of_power_of_two armv8_0_debug [0; 0; 0] 0 0x80000000
           (2 ^ 32 - 1) 0x3FFFFFFF 1 secure_cpu 30).
  - lia.
  - reflexivity.
  - reflexivity.
  - unfold params_fit. simpl. lia.
Defined.

(** C1 as stated fails for a power of two below 2^25.  At
    [max_va = 0xFFFFFF] (a 16 MiB space) a build with assertions stops in
    [assert]; a build without them writes [32 - 24 = 8] into bit 3, which
    is outside T0SZ, so the field reads 0. *)
Lemma t0sz_of_power_of_two_counterexample :
  0xFFFFFF + 1 = 2 ^ 24 /\
  setup_mmu_cfg aarch32_hdr armv8_0_debug [0; 0; 0] 0 0x80000000
    (2 ^ 32 - 1) 0xFFFFFF 1 secure_cpu
  = AssertFail /\
  setup_mmu_cfg aarch32_hdr armv8_0_release [0; 0; 0] 0 0x80000000
    (2 ^ 32 - 1) 0xFFFFFF 1 secure_cpu
  = Ret [0x4404FF; 0x80803508; 0x80000000] secure_cpu /\
  [0x4404FF; 0x80803508; 0x80000000] !! MMU_CFG_TCR aarch32_hdr
  = Some 0x80803508 /\
  ttbcr_t0sz 0x80803508 = 0 /\
  ttbcr_t0sz 0x80803508 <> 32 - 24.
Proof.
  split; [reflexivity |].
  split; [vm_compute; reflexivity |].
  split; [vm_compute; reflexivity |].
  split; [reflexivity |].
  split; [reflexivity | discriminate].
Qed.

(** C4. With the non-cacheable flag set, the walk-attribute field (SH0,
    ORGN0, IRGN0) of the word at [MMU_CFG_TCR] is the non-shareable,
    non-cacheable encoding; without the flag it is the inner-shareable
    write-back write-allocate encoding.  The two encodings have no bit in
    common and differ, so the two words never agree on that field. *)
Theorem walk_attributes_follow_flag (bc : build_cfg) (params : list Z)
    (flags_nc flags_wb base_table max_pa max_va xlat_regime : Z) (s : cpu) :
  is_u32 max_va ->
  asserts_pass aarch32_hdr bc s max_va ->
  params_fit aarch32_hdr params ->
  Z.land flags_nc (XLAT_TABLE_NC aarch32_hdr) <> 0 ->
  Z.land flags_wb (XLAT_TABLE_NC aarch32_hdr) = 0 ->
  exists params_nc params_wb tcr_nc tcr_wb,
    setup_mmu_cfg aarch32_hdr bc params flags_nc base_table max_pa max_va
      xlat_regime s
    = Ret params_nc s /\
    setup_mmu_cfg aarch32_hdr bc params flags_wb base_table max_pa max_va
      xlat_regime s
    = Ret params_wb s /\
    params_nc !! MMU_CFG_TCR aarch32_hdr = Some tcr_nc /\
    params_wb !! MMU_CFG_TCR aarch32_hdr = Some tcr_wb /\
    ttbcr_walk0 tcr_nc = walk_nc aarch32_hdr /\
    ttbcr_walk0 tcr_wb = walk_wbwa aarch32_hdr /\
    Z.land (walk_nc aarch32_hdr) (walk_wbwa aarch32_hdr) = 0 /\
    walk_nc aarch32_hdr <> walk_wbwa aarch32_hdr /\
    ttbcr_walk0 tcr_nc <> ttbcr_walk0 tcr_wb.
Proof.
  intros Hva Hpre Hfit Hnc Hwb.
  exists (params_image aarch32_hdr bc params flags_nc base_table max_va),
         (params_image aarch32_hdr bc params flags_wb base_table max_va),
         (u64 (ttbcr_image aarch32_hdr flags_nc max_va)),
         (u64 (ttbcr_image aarch32_hdr flags_wb max_va)).
  assert (Ewb : ttbcr_walk0 (u64 (ttbcr_image aarch32_hdr flags_wb max_va))
                = walk_wbwa aarch32_hdr).
  { rewrite walk0_of_image by exact Hva. rewrite Hwb. reflexivity. }
  assert (Enc : ttbcr_walk0 (u64 (ttbcr_image aarch32_hdr flags_nc max_va))
                = walk_nc aarch32_hdr).
  { rewrite walk0_of_image by exact Hva.
    destruct (Z.eqb_spec (Z.land flags_nc (XLAT_TABLE_NC aarch32_hdr)) 0);
      [contradiction | reflexivity]. }
  repeat split.
  - apply setup_mmu_cfg_returns; assumption.
  - apply setup_mmu_cfg_returns; assumption.
  - apply params_image_tcr; [exact Hfit | exact aarch32_params_slots_apart].
  - apply params_image_tcr; [exact Hfit | exact aarch32_params_slots_apart].
  - exact Enc.
  - exact Ewb.
  - discriminate.
  - rewrite Enc, Ewb. discriminate.
Qed.

(** Scenarios C and A of the spec, side by side. *)
Lemma walk_attributes_follow_flag_witness :
  exists params_nc params_wb tcr_nc tcr_wb,
    setup_mmu_cfg aarch32_hdr armv8_0_debug [0; 0; 0] 2 0x80000000
      (2 ^ 32 - 1) 0xFFFFFFFF 1 secure_cpu
    = Ret params_nc secure_cpu /\
    setup_mmu_cfg aarch32_hdr armv8_0_debug [0; 0; 0] 0 0x80000000
      (2 ^ 32 - 1) 0xFFFFFFFF 1 secure_cpu
    = Ret params_wb secure_cpu /\
    params_nc !! MMU_CFG_TCR aarch32_hdr = Some tcr_nc /\
    params_wb !! MMU_CFG_TCR aarch32_hdr = Some tcr_wb /\
    ttbcr_walk0 tcr_nc = 0 /\
    ttbcr_walk0 tcr_wb = 0x3500 /\
    Z.land (walk_nc aarch32_hdr) (walk_wbwa aarch32_hdr) = 0 /\
    walk_nc aarch32_hdr <> walk_wbwa aarch32_hdr /\
    ttbcr_walk0 tcr_nc <> ttbcr_walk0 tcr_wb.
Proof.
  apply (walk_attributes_follow_flag armv8_0_debug [0; 0; 0] 2 0 0x80000000
           (2 ^ 32 - 1) 0xFFFFFFFF 1 secure_cpu).
  - unfold is_u32, UINT32_MAX. lia.
  - intros _. split; [reflexivity | intros H; exfalso; apply H; reflexivity].
  - unfold params_fit. simpl. lia.
  - discriminate.
  - reflexivity.
Defined.

(** ** Assertions and well-definedness *)

Lemma preconditions_reflect (hdr : arch_hdr) (s : cpu) (max_va : Z) :
  preconditions hdr s max_va <->
  in_secure hdr s
  && ((max_va =? UINT32_MAX)
      || CHECK_VIRT_ADDR_SPACE_SIZE hdr (uintptr_t (max_va + 1))) = true.
Proof.
  unfold preconditions.
  rewrite andb_true_iff, orb_true_iff, Z.eqb_eq.
  destruct (Z.eq_dec max_va UINT32_MAX); intuition congruence.
Qed.

(** The first assertion stops a non-secure caller before anything else. *)
Lemma setup_mmu_cfg_non_secure (hdr : arch_hdr) (bc : build_cfg)
    (params : list Z) (flags base_table max_pa max_va xlat_regime : Z)
    (s : cpu) :
  ENABLE_ASSERTIONS bc = true -> in_secure hdr s = false ->
  setup_mmu_cfg hdr bc params flags base_table max_pa max_va xlat_regime s
  = AssertFail.
Proof.
  intros He Hs. unfold setup_mmu_cfg.
  unfold mbind at 1. unfold M_bind at 1.
  rewrite (assert_fails bc (IS_IN_SECURE hdr) s He)
    by (rewrite IS_IN_SECURE_eq, Hs; reflexivity).
  reflexivity.
Qed.

(** The second assertion stops a call with a size that is not accepted. *)
Lemma setup_mmu_cfg_bad_size (hdr : arch_hdr) (bc : build_cfg)
    (params : list Z) (flags base_table max_pa max_va xlat_regime : Z)
    (s : cpu) :
  ENABLE_ASSERTIONS bc = true -> in_secure hdr s = true ->
  max_va <> UINT32_MAX ->
  CHECK_VIRT_ADDR_SPACE_SIZE hdr (uintptr_t (max_va + 1)) = false ->
  setup_mmu_cfg hdr bc params flags base_table max_pa max_va xlat_regime s
  = AssertFail.
Proof.
  intros He Hs Hne Hc. unfold setup_mmu_cfg.
  unfold mbind at 1. unfold M_bind at 1.
  rewrite assert_passes by (intros _; rewrite IS_IN_SECURE_eq, Hs; reflexivity).
  destruct (Z.eqb_spec max_va UINT32_MAX) as [E | _]; [contradiction |].
  unfold mbind at 1. unfold M_bind at 1.
  unfold mbind at 1. unfold M_bind at 1.
  rewrite (assert_fails bc _ s He) by (rewrite Hc; reflexivity).
  reflexivity.
Qed.

(** C7. What [setup_mmu_cfg] does with its preconditions, for any values of
    the header constants:
    - when they hold (secure state; an accepted size unless
      [max_va = 0xFFFFFFFF]) and the array has its three slots, the call
      returns with the image written;
    - it stops in [assert] exactly when assertions are compiled in and a
      precondition fails;
    - the operand of [__builtin_ctzll] lies in [1, UINT32_MAX], so the
      builtin is defined there and the call never ends in [ctz_of_zero];
    - with room for the three words there is no third outcome: the failed
      assertion or the image, and no error value;
    - on AArch32 the accepted sizes are the powers of two from 2^25 to 2^31,
      hence non-zero. *)
Theorem setup_mmu_cfg_fail_fast (hdr : arch_hdr) (bc : build_cfg)
    (params : list Z) (flags base_table max_pa max_va xlat_regime : Z)
    (s : cpu) :
  is_u32 max_va ->
  let r :=
    setup_mmu_cfg hdr bc params flags base_table max_pa max_va xlat_regime s in
  let image := params_image hdr bc params flags base_table max_va in
  (preconditions hdr s max_va -> params_fit hdr params -> r = Ret image s) /\
  (r = AssertFail <->
   ENABLE_ASSERTIONS bc = true /\ ~ preconditions hdr s max_va) /\
  (max_va <> UINT32_MAX ->
   0 < uintptr_t (max_va + 1) <= UINT32_MAX /\
   forall s' : cpu,
     builtin_ctzll (uintptr_t (max_va + 1)) s'
     = Ret (ctz_of (uintptr_t (max_va + 1))) s') /\
  r <> Undef ctz_of_zero /\
  (params_fit hdr params -> r = AssertFail \/ r = Ret image s) /\
  (forall v : Z,
     is_u32 v ->
     (CHECK_VIRT_ADDR_SPACE_SIZE aarch32_hdr v = true <->
      exists k, 25 <= k <= 31 /\ v = 2 ^ k)).
Proof.
  intros Hva r image.
  assert (Hfail : ENABLE_ASSERTIONS bc = true ->
                  ~ preconditions hdr s max_va -> r = AssertFail).
  { intros He Hn. rewrite preconditions_reflect in Hn.
    destruct (in_secure hdr s) eqn:Hs;
      [| apply setup_mmu_cfg_non_secure; assumption].
    destruct (Z.eqb_spec max_va UINT32_MAX) as [E | E];
      [exfalso; apply Hn; reflexivity |].
    destruct (CHECK_VIRT_ADDR_SPACE_SIZE hdr (uintptr_t (max_va + 1))) eqn:Hc;
      [exfalso; apply Hn; reflexivity |].
    apply setup_mmu_cfg_bad_size; assumption. }
  assert (Hdec : (ENABLE_ASSERTIONS bc = true /\ ~ preconditions hdr s max_va)
                 \/ asserts_pass hdr bc s max_va).
  { unfold asserts_pass. destruct (ENABLE_ASSERTIONS bc);
      [| right; discriminate].
    destruct (in_secure hdr s
              && ((max_va =? UINT32_MAX)
                  || CHECK_VIRT_ADDR_SPACE_SIZE hdr (uintptr_t (max_va + 1))))
      eqn:Hb.
    - right. intros _. apply preconditions_reflect. exact Hb.
    - left. split; [reflexivity |]. rewrite preconditions_reflect, Hb.
      discriminate. }
  assert (Hpass : asserts_pass hdr bc s max_va ->
                  r = write_image hdr bc params flags base_table max_va s)
    by (intros Hp; apply setup_mmu_cfg_passes; assumption).
  split; [| split; [| split; [| split; [| split]]]].
  - intros Hp Hfit. apply setup_mmu_cfg_returns; try assumption.
    intros _. exact Hp.
  - split.
    + intros Hr. destruct Hdec as [Hd | Hp]; [exact Hd | exfalso].
      rewrite (Hpass Hp) in Hr.
      destruct (write_image_outcome hdr bc params flags base_table max_va s)
        as [E | E]; rewrite E in Hr; discriminate.
    + intros [He Hn]. apply Hfail; assumption.
  - intros Hne. pose proof (vass_positive max_va Hva Hne) as Hv.
    split; [exact Hv |]. intros s'. apply builtin_ctzll_defined. exact Hv.
  - destruct Hdec as [[He Hn] | Hp].
    + rewrite (Hfail He Hn). discriminate.
    + rewrite (Hpass Hp).
      destruct (write_image_outcome hdr bc params flags base_table max_va s)
        as [E | E]; rewrite E; discriminate.
  - intros Hfit. destruct Hdec as [[He Hn] | Hp].
    + left. apply Hfail; assumption.
    + right. apply setup_mmu_cfg_returns; assumption.
  - exact CHECK_VIRT_ADDR_SPACE_SIZE_spec.
Qed.

(** The contract at scenario B of the spec (1 GiB space, secure caller). *)
Lemma setup_mmu_cfg_fail_fast_witness :
  is_u32 0x3FFFFFFF /\
  let r :=
    setup_mmu_cfg aarch32_hdr armv8_0_debug [0; 0; 0] 0 0x80000000
      (2 ^ 32 - 1) 0x3FFFFFFF 1 secure_cpu in
  let image :=
    params_image aarch32_hdr armv8_0_debug [0; 0; 0] 0 0x80000000 0x3FFFFFFF in
  (preconditions aarch32_hdr secure_cpu 0x3FFFFFFF ->
   params_fit aarch32_hdr [0; 0; 0] -> r = Ret image secure_cpu) /\
  (r = AssertFail <->
   ENABLE_ASSERTIONS armv8_0_debug = true /\
   ~ preconditions aarch32_hdr secure_cpu 0x3FFFFFFF) /\
  (0x3FFFFFFF <> UINT32_MAX ->
   0 < uintptr_t (0x3FFFFFFF + 1) <= UINT32_MAX /\
   forall s' : cpu,
     builtin_ctzll (uintptr_t (0x3FFFFFFF + 1)) s'
     = Ret (ctz_of (uintptr_t (0x3FFFFFFF + 1))) s') /\
  r <> Undef ctz_of_zero /\
  (params_fit aarch32_hdr [0; 0; 0] ->
   r = AssertFail \/ r = Ret image secure_cpu) /\
  (forall v : Z,
     is_u32 v ->
     (CHECK_VIRT_ADDR_SPACE_SIZE aarch32_hdr v = true <->
      exists k, 25 <= k <= 31 /\ v = 2 ^ k)).
Proof.
  assert (H : is_u32 0x3FFFFFFF) by (unfold is_u32, UINT32_MAX; lia).
  split; [exact H |].
  exact (setup_mmu_cfg_fail_fast aarch32_hdr armv8_0_debug [0; 0; 0] 0
           0x80000000 (2 ^ 32 - 1) 0x3FFFFFFF 1 secure_cpu H).
Defined.

(** ** The model at work *)

(** Scenario A: full 32-bit space, cacheable walks, ARMv8.0. *)
Example scenario_A :
  setup_mmu_cfg aarch32_hdr armv8_0_debug [0; 0; 0] 0 0x80000000
    (2 ^ 32 - 1) 0xFFFFFFFF 1 secure_cpu
  = Ret [0x4404FF; 0x80803500; 0x80000000] secure_cpu.
Proof. vm_compute. reflexivity. Qed.

(** Scenario B: 1 GiB space. *)
Example scenario_B :
  setup_mmu_cfg aarch32_hdr armv8_0_debug [0; 0; 0] 0 0x80000000
    (2 ^ 32 - 1) 0x3FFFFFFF 1 secure_cpu
  = Ret [0x4404FF; 0x80803502; 0x80000000] secure_cpu.
Proof. vm_compute. reflexivity. Qed.

(** Scenario C: non-cacheable walks. *)
Example scenario_C :
  setup_mmu_cfg aarch32_hdr armv8_0_debug [0; 0; 0] 2 0x80000000
    (2 ^ 32 - 1) 0xFFFFFFFF 1 secure_cpu
  = Ret [0x4404FF; 0x80800000; 0x80000000] secure_cpu.
Proof. vm_compute. reflexivity. Qed.

(** On ARMv8.2 the CnP bit joins the table base. *)
Example scenario_A_armv8_2 :
  setup_mmu_cfg aarch32_hdr armv8_2_debug [0; 0; 0] 0 0x80000000
    (2 ^ 32 - 1) 0xFFFFFFFF 1 secure_cpu
  = Ret [0x4404FF; 0x80803500; 0x80000001] secure_cpu.
Proof. vm_compute. reflexivity. Qed.

(** A non-secure caller is stopped by the first assertion. *)
Example non_secure_caller_stops :
  setup_mmu_cfg aarch32_hdr armv8_0_debug [0; 0; 0] 0 0x80000000
    (2 ^ 32 - 1) 0xFFFFFFFF 1 non_secure_cpu
  = AssertFail.
Proof. vm_compute. reflexivity. Qed.

(** A size that is not a power of two is stopped by the second one. *)
Example odd_size_stops :
  setup_mmu_cfg aarch32_hdr armv8_0_debug [0; 0; 0] 0 0x80000000
    (2 ^ 32 - 1) 0x2FFFFFFF 1 secure_cpu
  = AssertFail.
Proof. vm_compute. reflexivity. Qed.

(** An array that is too short makes the stores undefined. *)
Example short_array_is_undefined :
  setup_mmu_cfg aarch32_hdr armv8_0_debug [0; 0] 0 0x80000000
    (2 ^ 32 - 1) 0xFFFFFFFF 1 secure_cpu
  = Undef store_out_of_bounds.
Proof. vm_compute. reflexivity. Qed.

Example tlbi_sequence :
  (xlat_arch_tlbi_va aarch32_hdr 0x12345678 1;; xlat_arch_tlbi_va_sync)
    secure_cpu
  = Ret tt {| scr := 0; sctlr := 0;
              trace := [dsbishst_op; tlbimvaais_op 0x12345000;
                        bpiallis_op; dsbish_op; isb_op] |}.
Proof. vm_compute. reflexivity. Qed.

Example max_supported_pa_debug :
  xlat_arch_get_max_supported_pa armv8_0_debug = Some (2 ^ 40 - 1).
Proof. reflexivity. Qed.

Example mmu_enabled_probe :
  is_mmu_enabled_ctx aarch32_hdr 0 {| scr := 0; sctlr := 5; trace := [] |}
  = Ret 1 {| scr := 0; sctlr := 5; trace := [] |}.
Proof. reflexivity. Qed.

(** * Further properties of the back end *)

(** ** Outcomes of [setup_mmu_cfg] *)

(** Every call ends in the failed assertion or goes on to the stores. *)
Lemma setup_mmu_cfg_cases (hdr : arch_hdr) (bc : build_cfg)
    (params : list Z) (flags base_table max_pa max_va xlat_regime : Z)
    (s : cpu) :
  is_u32 max_va ->
  setup_mmu_cfg hdr bc params flags base_table max_pa max_va xlat_regime s
  = AssertFail \/
  setup_mmu_cfg hdr bc params flags base_table max_pa max_va xlat_regime s
  = write_image hdr bc params flags base_table max_va s.
Proof.
  intros Hva.
  destruct (ENABLE_ASSERTIONS bc) eqn:He;
    [| right; apply setup_mmu_cfg_passes; [exact Hva |];
       intros He'; rewrite He in He'; discriminate].
  destruct (in_secure hdr s) eqn:Hs;
    [| left; apply setup_mmu_cfg_non_secure; assumption].
  destruct (Z.eq_dec max_va UINT32_MAX) as [E | E].
  - right. apply setup_mmu_cfg_passes; [exact Hva |].
    intros _. split; [exact Hs | intros Hne; contradiction].
  - destruct (CHECK_VIRT_ADDR_SPACE_SIZE hdr (uintptr_t (max_va + 1))) eqn:Hc.
    + right. apply setup_mmu_cfg_passes; [exact Hva |].
      intros _. split; [exact Hs | intros _; exact Hc].
    + left. apply setup_mmu_cfg_bad_size; assumption.
Qed.

Lemma setup_mmu_cfg_Ret_inv (hdr : arch_hdr) (bc : build_cfg)
    (params params' : list Z)
    (flags base_table max_pa max_va xlat_regime : Z) (s s' : cpu) :
  is_u32 max_va ->
  setup_mmu_cfg hdr bc params flags base_table max_pa max_va xlat_regime s
  = Ret params' s' ->
  s' = s /\ params' = params_image hdr bc params flags base_table max_va.
Proof.
  intros Hva Hr.
  destruct (setup_mmu_cfg_cases hdr bc params flags base_table max_pa max_va
              xlat_regime s Hva) as [E | E];
    rewrite E in Hr; [discriminate |].
  destruct (write_image_outcome hdr bc params flags base_table max_va s)
    as [E' | E']; rewrite E' in Hr; [| discriminate].
  injection Hr as <- <-. split; reflexivity.
Qed.

(** X1. Whenever [setup_mmu_cfg] returns, the processor state is the one it
    started from (no register written, no instruction issued), the array
    has kept its length, and every slot other than the three it fills
    holds what it held before. *)
Theorem setup_mmu_cfg_frame (hdr : arch_hdr) (bc : build_cfg)
    (params params' : list Z)
    (flags base_table max_pa max_va xlat_regime : Z) (s s' : cpu) :
  is_u32 max_va ->
  setup_mmu_cfg hdr bc params flags base_table max_pa max_va xlat_regime s
  = Ret params' s' ->
  s' = s /\
  length params' = length params /\
  (forall i : nat,
     i <> MMU_CFG_MAIR hdr -> i <> MMU_CFG_TCR hdr ->
     i <> MMU_CFG_TTBR0 hdr ->
     params' !! i = params !! i).
Proof.
  intros Hva Hr.
  destruct (setup_mmu_cfg_Ret_inv _ _ _ _ _ _ _ _ _ _ _ Hva Hr) as [-> ->].
  split; [reflexivity |]. unfold params_image. split.
  - rewrite !length_insert. reflexivity.
  - intros i H1 H2 H3.
    rewrite !list_lookup_insert_ne by congruence. reflexivity.
Qed.

Lemma setup_mmu_cfg_frame_witness :
  secure_cpu = secure_cpu /\
  length [0x4404FF; 0x80803502; 0x80000000; 10; 11]
  = length [7; 8; 9; 10; 11] /\
  (forall i : nat,
     i <> MMU_CFG_MAIR aarch32_hdr -> i <> MMU_CFG_TCR aarch32_hdr ->
     i <> MMU_CFG_TTBR0 aarch32_hdr ->
     [0x4404FF; 0x80803502; 0x80000000; 10; 11] !! i
     = [7; 8; 9; 10; 11] !! i).
Proof.
  apply (setup_mmu_cfg_frame aarch32_hdr armv8_0_debug [7; 8; 9; 10; 11]
           [0x4404FF; 0x80803502; 0x80000000; 10; 11] 0 0x80000000
           (2 ^ 32 - 1) 0x3FFFFFFF 1 secure_cpu secure_cpu).
  - unfold is_u32, UINT32_MAX. lia.
  - vm_compute. reflexivity.
Defined.

Lemma three_stores_overwrite (l : list Z) (a b c : nat)
    (x y z x' y' z' : Z) :
  a <> b -> a <> c -> b <> c ->
  (a < length l)%nat -> (b < length l)%nat -> (c < length l)%nat ->
  <[c := z]> (<[b := y]> (<[a := x]>
    (<[c := z']> (<[b := y']> (<[a := x']> l)))))
  = <[c := z]> (<[b := y]> (<[a := x]> l)).
Proof.
  intros Hab Hac Hbc Ha Hb Hc. apply list_eq. intros i.
  destruct (decide (i = c)) as [-> | Hic].
  { rewrite !list_lookup_insert_eq by (rewrite ?length_insert; lia).
    reflexivity. }
  rewrite !(list_lookup_insert_ne _ c i) by congruence.
  destruct (decide (i = b)) as [-> | Hib].
  { rewrite !list_lookup_insert_eq by (rewrite ?length_insert; lia).
    reflexivity. }
  rewrite !(list_lookup_insert_ne _ b i) by congruence.
  destruct (decide (i = a)) as [-> | Hia].
  { rewrite !list_lookup_insert_eq by (rewrite ?length_insert; lia).
    reflexivity. }
  rewrite !(list_lookup_insert_ne _ a i) by congruence.
  rewrite !(list_lookup_insert_ne _ c i) by congruence.
  rewrite !(list_lookup_insert_ne _ b i) by congruence.
  rewrite !(list_lookup_insert_ne _ a i) by congruence.
  reflexivity.
Qed.

(** X2. The three words are overwritten, not merged: a call made on the
    array an earlier call has filled leaves exactly what it would have
    left on the original array. *)
Theorem setup_mmu_cfg_overwrites (hdr : arch_hdr) (bc : build_cfg)
    (params : list Z)
    (flags1 base_table1 max_pa1 max_va1 regime1 : Z)
    (flags2 base_table2 max_pa2 max_va2 regime2 : Z) (s : cpu) :
  params_slots_apart hdr ->
  params_fit hdr params ->
  is_u32 max_va1 -> asserts_pass hdr bc s max_va1 ->
  is_u32 max_va2 -> asserts_pass hdr bc s max_va2 ->
  exists first second,
    setup_mmu_cfg hdr bc params flags1 base_table1 max_pa1 max_va1 regime1 s
    = Ret first s /\
    setup_mmu_cfg hdr bc first flags2 base_table2 max_pa2 max_va2 regime2 s
    = Ret second s /\
    setup_mmu_cfg hdr bc params flags2 base_table2 max_pa2 max_va2 regime2 s
    = Ret second s.
Proof.
  intros (H1 & H2 & H3) Hfit Hv1 Hp1 Hv2 Hp2.
  exists (params_image hdr bc params flags1 base_table1 max_va1),
         (params_image hdr bc params flags2 base_table2 max_va2).
  split; [apply setup_mmu_cfg_returns; assumption |].
  split; [| apply setup_mmu_cfg_returns; assumption].
  rewrite setup_mmu_cfg_returns; try assumption.
  - f_equal. unfold params_image.
    destruct Hfit as (F1 & F2 & F3).
    apply three_stores_overwrite; assumption.
  - destruct Hfit as (F1 & F2 & F3). unfold params_fit, params_image.
    rewrite !length_insert. auto.
Qed.

(** One call with non-cacheable walks, then one with a 1 GiB space. *)
Lemma setup_mmu_cfg_overwrites_witness :
  exists first second,
    setup_mmu_cfg aarch32_hdr armv8_0_debug [0; 0; 0] 2 0x80000000
      (2 ^ 32 - 1) 0xFFFFFFFF 1 secure_cpu
    = Ret first secure_cpu /\
    setup_mmu_cfg aarch32_hdr armv8_0_debug first 0 0x90000000
      (2 ^ 32 - 1) 0x3FFFFFFF 1 secure_cpu
    = Ret second secure_cpu /\
    setup_mmu_cfg aarch32_hdr armv8_0_debug [0; 0; 0] 0 0x90000000
      (2 ^ 32 - 1) 0x3FFFFFFF 1 secure_cpu
    = Ret second secure_cpu.
Proof.
  apply (setup_mmu_cfg_overwrites aarch32_hdr armv8_0_debug [0; 0; 0]
           2 0x80000000 (2 ^ 32 - 1) 0xFFFFFFFF 1
           0 0x90000000 (2 ^ 32 - 1) 0x3FFFFFFF 1 secure_cpu).
  - exact aarch32_params_slots_apart.
  - unfold params_fit. simpl. lia.
  - unfold is_u32, UINT32_MAX. lia.
  - intros _. split; [reflexivity | intros H; exfalso; apply H; reflexivity].
  - unfold is_u32, UINT32_MAX. lia.
  - intros _. split; [reflexivity | intros _; reflexivity].
Defined.

(** ** The size field and the lowest set bit *)

Lemma ctz_pos_lowest (p : positive) : lowest_set_bit (Z.pos p) (ctz_pos p).
Proof.
  unfold lowest_set_bit.
  induction p as [p _ | p (IH0 & IH1 & IH2) |]; simpl ctz_pos.
  - split; [lia |]. split; [| intros i Hi; lia].
    rewrite Pos2Z.inj_xI. apply Z.testbit_odd_0.
  - split; [lia |]. rewrite Pos2Z.inj_xO. split.
    + rewrite Z.add_1_l. rewrite Z.double_bits_succ. exact IH1.
    + intros i Hi. destruct (Z.eq_dec i 0) as [-> | Hne].
      * apply Z.testbit_even_0.
      * replace i with (Z.succ (i - 1)) by lia.
        rewrite Z.double_bits_succ. apply IH2. lia.
  - split; [lia |]. split; [reflexivity | intros i Hi; lia].
Qed.

Lemma ctz_of_lowest (x : Z) :
  0 < x <= UINT32_MAX -> lowest_set_bit x (ctz_of x).
Proof.
  unfold UINT32_MAX. intros Hx. unfold ctz_of, u64.
  rewrite Z.mod_small by lia.
  destruct x as [| p | p]; try lia. apply ctz_pos_lowest.
Qed.

(** X5. For a call that gets past its assertions with
    [max_va <> 0xFFFFFFFF], the T0SZ field holds [32 - n] reduced to three
    bits, where [n] is the index of the lowest set bit of [max_va + 1].
    The size need not be a power of two for this: in a build without
    assertions any size goes through and is cut down to its lowest set
    bit. *)
Theorem t0sz_from_lowest_set_bit (bc : build_cfg) (params : list Z)
    (flags base_table max_pa max_va xlat_regime : Z) (s : cpu) :
  is_u32 max_va ->
  max_va <> UINT32_MAX ->
  asserts_pass aarch32_hdr bc s max_va ->
  params_fit aarch32_hdr params ->
  exists params' tcr n,
    setup_mmu_cfg aarch32_hdr bc params flags base_table max_pa max_va
      xlat_regime s
    = Ret params' s /\
    params' !! MMU_CFG_TCR aarch32_hdr = Some tcr /\
    lowest_set_bit (max_va + 1) n /\
    n <= 31 /\
    ttbcr_t0sz tcr = (32 - n) mod 8.
Proof.
  intros Hva Hne Hpre Hfit.
  pose proof (vass_positive max_va Hva Hne) as Hv.
  assert (Hsz : uintptr_t (max_va + 1) = max_va + 1).
  { apply u32_small. unfold is_u32, UINT32_MAX in *. lia. }
  exists (params_image aarch32_hdr bc params flags base_table max_va),
         (u64 (ttbcr_image aarch32_hdr flags max_va)),
         (ctz_of (max_va + 1)).
  split; [apply setup_mmu_cfg_returns; assumption |].
  split; [apply params_image_tcr;
          [exact Hfit | exact aarch32_params_slots_apart] |].
  rewrite Hsz in Hv.
  split; [apply ctz_of_lowest; exact Hv |].
  split; [apply ctz_of_bounds; exact Hv |].
  rewrite t0sz_of_image, Hsz.
  destruct (Z.eqb_spec max_va UINT32_MAX); [contradiction | reflexivity].
Qed.

(** A 768 MiB space in a build without assertions, from the non-secure
    state: the lowest set bit of 0x30000000 is bit 28, so T0SZ is 4 and
    the table is walked for a 256 MiB space. *)
Lemma t0sz_from_lowest_set_bit_witness :
  exists params' tcr n,
    setup_mmu_cfg aarch32_hdr armv8_0_release [0; 0; 0] 0 0x80000000
      (2 ^ 32 - 1) 0x2FFFFFFF 1 non_secure_cpu
    = Ret params' non_secure_cpu /\
    params' !! MMU_CFG_TCR aarch32_hdr = Some tcr /\
    lowest_set_bit (0x2FFFFFFF + 1) n /\
    n <= 31 /\
    ttbcr_t0sz tcr = (32 - n) mod 8.
Proof.
  apply (t0sz_from_lowest_set_bit armv8_0_release [0; 0; 0] 0 0x80000000
           (2 ^ 32 - 1) 0x2FFFFFFF 1 non_secure_cpu).
  - unfold is_u32, UINT32_MAX. lia.
  - discriminate.
  - intros H. discriminate H.
  - unfold params_fit. simpl. lia.
Defined.

Example release_build_cuts_size_down :
  setup_mmu_cfg aarch32_hdr armv8_0_release [0; 0; 0] 0 0x80000000
    (2 ^ 32 - 1) 0x2FFFFFFF 1 non_secure_cpu
  = Ret [0x4404FF; 0x80803504; 0x80000000] non_secure_cpu.
Proof. vm_compute. reflexivity. Qed.

(** ** The translation-control word for an accepted size *)

Lemma lor_below_pow2 (a b n : Z) :
  0 <= n -> 0 <= a < 2 ^ n -> 0 <= b < 2 ^ n -> 0 <= Z.lor a b < 2 ^ n.
Proof.
  intros Hn Ha Hb.
  assert (E : Z.lor a b = Z.lor a b mod 2 ^ n).
  { apply Z.bits_inj'. intros i Hi.
    rewrite Z.testbit_mod_pow2 by exact Hn.
    destruct (Z.ltb_spec i n) as [Hlt | Hge]; [reflexivity |].
    rewrite Z.lor_spec.
    rewrite <- (Z.mod_small a (2 ^ n)), <- (Z.mod_small b (2 ^ n)) by lia.
    rewrite !Z.mod_pow2_bits_high by lia. reflexivity. }
  rewrite E. apply Z.mod_pos_bound. apply Z.pow_pos_nonneg; lia.
Qed.

Lemma is_u32_lor (a b : Z) : is_u32 a -> is_u32 b -> is_u32 (Z.lor a b).
Proof.
  unfold is_u32, UINT32_MAX. intros Ha Hb.
  pose proof (lor_below_pow2 a b 32). lia.
Qed.

(** What the assertions leave: the full space, or a power of two from
    2^25 to 2^31. *)
Lemma accepted_sizes (s : cpu) (max_va : Z) :
  is_u32 max_va ->
  preconditions aarch32_hdr s max_va ->
  max_va = UINT32_MAX \/
  exists k, 25 <= k <= 31 /\ max_va <> UINT32_MAX /\
            uintptr_t (max_va + 1) = 2 ^ k /\ max_va + 1 = 2 ^ k.
Proof.
  intros Hva [_ Hc].
  destruct (Z.eq_dec max_va UINT32_MAX) as [E | E]; [left; exact E | right].
  pose proof (vass_positive max_va Hva E) as Hv.
  assert (Hsz : uintptr_t (max_va + 1) = max_va + 1).
  { apply u32_small. unfold is_u32, UINT32_MAX in *. lia. }
  specialize (Hc E).
  apply CHECK_VIRT_ADDR_SPACE_SIZE_spec in Hc; [| unfold is_u32; lia].
  destruct Hc as (k & Hk & Hpow). exists k.
  repeat split; try lia; try assumption.
Qed.

(** X3. For a call whose preconditions hold, the size of the virtual
    address space is read back from the T0SZ field: [2 ^ (32 - T0SZ)] is
    [max_va + 1] (the full space included, with T0SZ = 0). *)
Theorem address_space_size_from_t0sz (bc : build_cfg) (params : list Z)
    (flags base_table max_pa max_va xlat_regime : Z) (s : cpu) :
  is_u32 max_va ->
  preconditions aarch32_hdr s max_va ->
  params_fit aarch32_hdr params ->
  exists params' tcr,
    setup_mmu_cfg aarch32_hdr bc params flags base_table max_pa max_va
      xlat_regime s
    = Ret params' s /\
    params' !! MMU_CFG_TCR aarch32_hdr = Some tcr /\
    0 <= ttbcr_t0sz tcr <= 7 /\
    2 ^ (32 - ttbcr_t0sz tcr) = max_va + 1.
Proof.
  intros Hva Hpre Hfit.
  exists (params_image aarch32_hdr bc params flags base_table max_va),
         (u64 (ttbcr_image aarch32_hdr flags max_va)).
  split; [apply setup_mmu_cfg_returns; try assumption; intros _; exact Hpre |].
  split; [apply params_image_tcr;
          [exact Hfit | exact aarch32_params_slots_apart] |].
  rewrite t0sz_of_image.
  destruct (accepted_sizes s max_va Hva Hpre)
    as [E | (k & Hk & Hne & Hsz & Hv)].
  - rewrite E. simpl. unfold UINT32_MAX. split; [lia | reflexivity].
  - destruct (Z.eqb_spec max_va UINT32_MAX); [contradiction |].
    rewrite Hsz, ctz_of_pow2 by lia.
    rewrite Z.mod_small by lia.
    split; [lia |]. rewrite Hv. f_equal. lia.
Qed.

Lemma address_space_size_from_t0sz_witness :
  exists params' tcr,
    setup_mmu_cfg aarch32_hdr armv8_0_debug [0; 0; 0] 0 0x80000000
      (2 ^ 32 - 1) 0x07FFFFFF 1 secure_cpu
    = Ret params' secure_cpu /\
    params' !! MMU_CFG_TCR aarch32_hdr = Some tcr /\
    0 <= ttbcr_t0sz tcr <= 7 /\
    2 ^ (32 - ttbcr_t0sz tcr) = 0x07FFFFFF + 1.
Proof.
  apply (address_space_size_from_t0sz armv8_0_debug [0; 0; 0] 0 0x80000000
           (2 ^ 32 - 1) 0x07FFFFFF 1 secure_cpu).
  - unfold is_u32, UINT32_MAX. lia.
  - split; [reflexivity | intros _; reflexivity].
  - unfold params_fit. simpl. lia.
Defined.

Lemma u32_lor_small (a b : Z) :
  is_u32 a -> is_u32 b -> u32 (Z.lor a b) = Z.lor a b.
Proof. intros Ha Hb. apply u32_small, is_u32_lor; assumption. Qed.

(** X4. For a call whose preconditions hold, the word at [MMU_CFG_TCR] is
    EAE (bit 31) and EPD1 (bit 23) together with the walk-attribute field
    and the T0SZ field, and nothing else: no other bit of the register is
    set (EPD0, T1SZ, A1 and the attributes of the TTBR1 walks stay 0). *)
Theorem tcr_is_base_and_two_fields (bc : build_cfg) (params : list Z)
    (flags base_table max_pa max_va xlat_regime : Z) (s : cpu) :
  is_u32 max_va ->
  preconditions aarch32_hdr s max_va ->
  params_fit aarch32_hdr params ->
  exists params' tcr,
    setup_mmu_cfg aarch32_hdr bc params flags base_table max_pa max_va
      xlat_regime s
    = Ret params' s /\
    params' !! MMU_CFG_TCR aarch32_hdr = Some tcr /\
    tcr = Z.lor (Z.lor 0x80800000 (ttbcr_walk0 tcr)) (ttbcr_t0sz tcr).
Proof.
  intros Hva Hpre Hfit.
  exists (params_image aarch32_hdr bc params flags base_table max_va),
         (u64 (ttbcr_image aarch32_hdr flags max_va)).
  split; [apply setup_mmu_cfg_returns; try assumption; intros _; exact Hpre |].
  split; [apply params_image_tcr;
          [exact Hfit | exact aarch32_params_slots_apart] |].
  rewrite walk0_of_image by exact Hva. rewrite t0sz_of_image.
  set (walk := if negb (Z.land flags (XLAT_TABLE_NC aarch32_hdr) =? 0)
               then walk_nc aarch32_hdr else walk_wbwa aarch32_hdr).
  assert (Hw : is_u32 walk)
    by (unfold walk; destruct (negb _); unfold is_u32, UINT32_MAX;
        vm_compute; split; discriminate).
  assert (Hb : is_u32 0x80800000)
    by (unfold is_u32, UINT32_MAX; lia).
  assert (Hsized : exists t,
            is_u32 t /\
            ttbcr_sized aarch32_hdr max_va = Z.lor 0x80800000 t /\
            (if max_va =? UINT32_MAX then 0
             else (32 - ctz_of (uintptr_t (max_va + 1))) mod 8) = t).
  { unfold ttbcr_sized.
    change (u32 (Z.lor (u32 (TTBCR_EAE_BIT aarch32_hdr))
                       (TTBCR_EPD1_BIT aarch32_hdr))) with 0x80800000.
    destruct (accepted_sizes s max_va Hva Hpre)
      as [E | (k & Hk & Hne & Hsz & _)].
    - exists 0. rewrite E. simpl.
      split; [unfold is_u32, UINT32_MAX; lia | split; reflexivity].
    - destruct (Z.eqb_spec max_va UINT32_MAX); [contradiction |].
      rewrite Hsz, ctz_of_pow2 by lia.
      assert (Ht : is_u32 (32 - k)) by (unfold is_u32, UINT32_MAX; lia).
      exists (32 - k). split; [exact Ht |].
      rewrite (u32_small (32 - k)), u32_lor_small by assumption.
      split; [reflexivity | apply Z.mod_small; lia]. }
  destruct Hsized as (t & Ht & Es & Et). rewrite Et.
  unfold ttbcr_image. fold walk.
  assert (Ei : (if negb (Z.land flags (XLAT_TABLE_NC aarch32_hdr) =? 0)
                then u32 (Z.lor (ttbcr_sized aarch32_hdr max_va)
                                (walk_nc aarch32_hdr))
                else u32 (Z.lor (ttbcr_sized aarch32_hdr max_va)
                                (walk_wbwa aarch32_hdr)))
               = u32 (Z.lor (ttbcr_sized aarch32_hdr max_va) walk))
    by (unfold walk; destruct (negb _); reflexivity).
  rewrite Ei, Es.
  assert (Hbt : is_u32 (Z.lor 0x80800000 t)) by (apply is_u32_lor; assumption).
  rewrite u32_lor_small by assumption.
  rewrite u64_small by (apply is_u32_lor; assumption).
  rewrite <- !Z.lor_assoc. f_equal. apply Z.lor_comm.
Qed.

Lemma tcr_is_base_and_two_fields_witness :
  exists params' tcr,
    setup_mmu_cfg aarch32_hdr armv8_0_debug [0; 0; 0] 0 0x80000000
      (2 ^ 32 - 1) 0x07FFFFFF 1 secure_cpu
    = Ret params' secure_cpu /\
    params' !! MMU_CFG_TCR aarch32_hdr = Some tcr /\
    tcr = Z.lor (Z.lor 0x80800000 (ttbcr_walk0 tcr)) (ttbcr_t0sz tcr).
Proof.
  apply (tcr_is_base_and_two_fields armv8_0_debug [0; 0; 0] 0 0x80000000
           (2 ^ 32 - 1) 0x07FFFFFF 1 secure_cpu).
  - unfold is_u32, UINT32_MAX. lia.
  - split; [reflexivity | intros _; reflexivity].
  - unfold params_fit. simpl. lia.
Defined.

(** ** Flags *)

(** X12. Of [flags], only the [XLAT_TABLE_NC] bit is looked at: two calls
    whose flags agree on whether that bit is set have the same outcome,
    whatever the other bits are. *)
Theorem setup_mmu_cfg_reads_only_nc_flag (hdr : arch_hdr) (bc : build_cfg)
    (params : list Z) (flags1 flags2 base_table max_pa max_va regime : Z)
    (s : cpu) :
  (Z.land flags1 (XLAT_TABLE_NC hdr) =? 0)
  = (Z.land flags2 (XLAT_TABLE_NC hdr) =? 0) ->
  setup_mmu_cfg hdr bc params flags1 base_table max_pa max_va regime s
  = setup_mmu_cfg hdr bc params flags2 base_table max_pa max_va regime s.
Proof. intros H. unfold setup_mmu_cfg. rewrite H. reflexivity. Qed.

Lemma setup_mmu_cfg_reads_only_nc_flag_witness :
  setup_mmu_cfg aarch32_hdr armv8_0_debug [0; 0; 0] 0x2 0x80000000
    (2 ^ 32 - 1) 0xFFFFFFFF 1 secure_cpu
  = setup_mmu_cfg aarch32_hdr armv8_0_debug [0; 0; 0] 0xFFFFFFFF 0x80000000
      (2 ^ 32 - 1) 0xFFFFFFFF 1 secure_cpu.
Proof.
  apply (setup_mmu_cfg_reads_only_nc_flag aarch32_hdr armv8_0_debug [0; 0; 0]
           0x2 0xFFFFFFFF 0x80000000 (2 ^ 32 - 1) 0xFFFFFFFF 1 secure_cpu).
  reflexivity.
Defined.

(** ** The table base *)

Lemma u64_lor_small (a b : Z) :
  0 <= a < 2 ^ 64 -> 0 <= b < 2 ^ 64 -> u64 (Z.lor a b) = Z.lor a b.
Proof.
  intros Ha Hb. unfold u64. apply Z.mod_small.
  apply lor_below_pow2; [lia | exact Ha | exact Hb].
Qed.

(** X8. When the table is aligned so that its address does not use the
    CnP bit, the address is read back from the word at [MMU_CFG_TTBR0] by
    clearing that bit, on every build; and the bit itself tells whether
    the build targets ARMv8.2 or later. *)
Theorem base_table_from_ttbr0 (hdr : arch_hdr) (bc : build_cfg)
    (params : list Z) (flags base_table max_pa max_va xlat_regime : Z)
    (s : cpu) :
  is_u32 base_table ->
  0 <= TTBR_CNP_BIT hdr < 2 ^ 64 ->
  Z.land base_table (TTBR_CNP_BIT hdr) = 0 ->
  is_u32 max_va ->
  asserts_pass hdr bc s max_va ->
  params_fit hdr params ->
  exists params' ttbr0,
    setup_mmu_cfg hdr bc params flags base_table max_pa max_va xlat_regime s
    = Ret params' s /\
    params' !! MMU_CFG_TTBR0 hdr = Some ttbr0 /\
    Z.ldiff ttbr0 (TTBR_CNP_BIT hdr) = base_table /\
    Z.land ttbr0 (TTBR_CNP_BIT hdr)
    = if ARM_ARCH_AT_LEAST bc 8 2 then TTBR_CNP_BIT hdr else 0.
Proof.
  intros Hb Hc Hal Hva Hpre Hfit.
  exists (params_image hdr bc params flags base_table max_va),
         (ttbr0_image hdr bc base_table).
  split; [apply setup_mmu_cfg_returns; assumption |].
  split.
  { unfold params_image. apply list_lookup_insert_eq.
    rewrite !length_insert. apply Hfit. }
  unfold ttbr0_image. rewrite (u64_of_u32 _ Hb).
  assert (Hb64 : 0 <= base_table < 2 ^ 64)
    by (unfold is_u32, UINT32_MAX in Hb; lia).
  assert (Hdiff : Z.ldiff base_table (TTBR_CNP_BIT hdr) = base_table).
  { apply Z.bits_inj'. intros n Hn. rewrite Z.ldiff_spec.
    assert (Hbit : Z.testbit (Z.land base_table (TTBR_CNP_BIT hdr)) n = false)
      by (rewrite Hal; apply Z.bits_0).
    rewrite Z.land_spec in Hbit.
    destruct (Z.testbit base_table n), (Z.testbit (TTBR_CNP_BIT hdr) n);
      simpl in *; congruence. }
  destruct (ARM_ARCH_AT_LEAST bc 8 2).
  - rewrite u64_lor_small by assumption. split.
    + apply Z.bits_inj'. intros n Hn.
      rewrite <- Hdiff at 2. rewrite !Z.ldiff_spec, Z.lor_spec.
      destruct (Z.testbit base_table n), (Z.testbit (TTBR_CNP_BIT hdr) n);
        reflexivity.
    + rewrite Z.land_lor_distr_l, Hal, Z.lor_0_l. apply Z.land_diag.
  - split; [exact Hdiff | exact Hal].
Qed.

Lemma base_table_from_ttbr0_witness :
  exists params' ttbr0,
    setup_mmu_cfg aarch32_hdr armv8_2_debug [0; 0; 0] 0 0x80004000
      (2 ^ 32 - 1) 0xFFFFFFFF 1 secure_cpu
    = Ret params' secure_cpu /\
    params' !! MMU_CFG_TTBR0 aarch32_hdr = Some ttbr0 /\
    Z.ldiff ttbr0 (TTBR_CNP_BIT aarch32_hdr) = 0x80004000 /\
    Z.land ttbr0 (TTBR_CNP_BIT aarch32_hdr)
    = if ARM_ARCH_AT_LEAST armv8_2_debug 8 2
      then TTBR_CNP_BIT aarch32_hdr else 0.
Proof.
  apply (base_table_from_ttbr0 aarch32_hdr armv8_2_debug [0; 0; 0] 0
           0x80004000 (2 ^ 32 - 1) 0xFFFFFFFF 1 secure_cpu).
  - unfold is_u32, UINT32_MAX. lia.
  - simpl. lia.
  - reflexivity.
  - unfold is_u32, UINT32_MAX. lia.
  - intros _. split; [reflexivity | intros H; exfalso; apply H; reflexivity].
  - unfold params_fit. simpl. lia.
Defined.

(** ** A round of TLB maintenance *)

Lemma xlat_arch_tlbi_va_run (hdr : arch_hdr) (va xlat_regime : Z) (s : cpu) :
  xlat_arch_tlbi_va hdr va xlat_regime s
  = Ret tt (issue (tlbimvaais_op (TLBI_ADDR hdr va)) (issue dsbishst_op s)).
Proof. reflexivity. Qed.

Lemma xlat_arch_tlbi_va_sync_run (s : cpu) :
  xlat_arch_tlbi_va_sync s
  = Ret tt (issue isb_op (issue dsbish_op (issue bpiallis_op s))).
Proof. reflexivity. Qed.

Lemma tlbi_va_each_run (hdr : arch_hdr) (vas : list Z) (xlat_regime : Z)
    (s : cpu) :
  tlbi_va_each hdr vas xlat_regime s
  = Ret tt {| scr := scr s; sctlr := sctlr s;
              trace := trace s ++ tlbi_va_events hdr vas |}.
Proof.
  revert s. induction vas as [| va rest IH]; intros s.
  - simpl. unfold mret, M_ret. rewrite app_nil_r. destruct s; reflexivity.
  - simpl tlbi_va_each. unfold mbind, M_bind.
    rewrite xlat_arch_tlbi_va_run, IH. simpl.
    rewrite <- !app_assoc. reflexivity.
Qed.

(** X6. A round of invalidations (one [xlat_arch_tlbi_va] per address, then
    one [xlat_arch_tlbi_va_sync]) always returns, leaves the registers
    alone, and adds to the trace, for each address in order, a dsbishst
    followed by the tlbimvaais of that address, and after all of them one
    bpiallis, dsbish, isb.  So there are twice as many instructions as
    addresses plus three, every invalidation comes before the dsbish, and
    the round ends with the isb. *)
Theorem tlbi_round_trace (hdr : arch_hdr) (vas : list Z) (xlat_regime : Z)
    (s : cpu) :
  (tlbi_va_each hdr vas xlat_regime;; xlat_arch_tlbi_va_sync) s
  = Ret tt {| scr := scr s; sctlr := sctlr s;
              trace := trace s ++ tlbi_va_events hdr vas
                       ++ [bpiallis_op; dsbish_op; isb_op] |} /\
  length (tlbi_va_events hdr vas ++ [bpiallis_op; dsbish_op; isb_op])
  = (2 * length vas + 3)%nat /\
  (forall va : Z,
     va ∈ vas ->
     exists before after,
       tlbi_va_events hdr vas ++ [bpiallis_op; dsbish_op; isb_op]
       = before ++ [dsbishst_op; tlbimvaais_op (TLBI_ADDR hdr va)] ++ after
         ++ [bpiallis_op; dsbish_op; isb_op]).
Proof.
  split; [| split].
  - unfold mbind, M_bind. rewrite tlbi_va_each_run, xlat_arch_tlbi_va_sync_run.
    unfold issue. simpl. rewrite <- !app_assoc. reflexivity.
  - rewrite length_app. simpl.
    induction vas as [| va rest IH]; simpl in *; lia.
  - intros va Hin. apply list_elem_of_split in Hin.
    destruct Hin as (l1 & l2 & ->).
    exists (tlbi_va_events hdr l1), (tlbi_va_events hdr l2).
    unfold tlbi_va_events. rewrite flat_map_app. simpl.
    rewrite <- !app_assoc. reflexivity.
Qed.

(** ** RegimeStateProbe *)

Lemma land_pow2_testbit (v b : Z) :
  0 <= b ->
  Z.land v (2 ^ b) = if Z.testbit v b then 2 ^ b else 0.
Proof.
  intros Hb. apply Z.bits_inj'. intros n Hn.
  rewrite Z.land_spec, Z.pow2_bits_eqb by exact Hb.
  destruct (Z.eqb_spec b n) as [<- | Hne].
  - destruct (Z.testbit v b) eqn:E.
    + rewrite Z.pow2_bits_true by exact Hb. reflexivity.
    + rewrite Z.bits_0. reflexivity.
  - rewrite andb_false_r. destruct (Z.testbit v b).
    + rewrite Z.pow2_bits_eqb by exact Hb.
      destruct (Z.eqb_spec b n); [contradiction | reflexivity].
    + rewrite Z.bits_0. reflexivity.
Qed.

(** X7. With [SCTLR_M_BIT] a single bit, [is_mmu_enabled_ctx] returns that
    bit of SCTLR as 0 or 1 (not the masked register value), whatever the
    context argument and the other bits of the register are, and leaves
    the processor state as it was. *)
Theorem is_mmu_enabled_reads_m_bit (hdr : arch_hdr) (ctx : Z) (s : cpu)
    (b : Z) :
  0 <= b ->
  SCTLR_M_BIT hdr = 2 ^ b ->
  is_mmu_enabled_ctx hdr ctx s
  = Ret (Z.b2z (Z.testbit (sctlr s) b)) s.
Proof.
  intros Hb Hm. unfold is_mmu_enabled_ctx, read_sctlr, mbind, M_bind,
    mret, M_ret.
  rewrite Hm, land_pow2_testbit by exact Hb.
  assert (Hpos : 0 < 2 ^ b) by (apply Z.pow_pos_nonneg; lia).
  destruct (Z.testbit (sctlr s) b); simpl.
  - destruct (Z.eqb_spec (2 ^ b) 0); [lia | reflexivity].
  - reflexivity.
Qed.

Lemma is_mmu_enabled_reads_m_bit_witness :
  is_mmu_enabled_ctx aarch32_hdr 0x1000
    {| scr := 0; sctlr := 0xC5183D; trace := [] |}
  = Ret (Z.b2z (Z.testbit 0xC5183D 0))
      {| scr := 0; sctlr := 0xC5183D; trace := [] |}.
Proof.
  apply (is_mmu_enabled_reads_m_bit aarch32_hdr 0x1000
           {| scr := 0; sctlr := 0xC5183D; trace := [] |} 0).
  - lia.
  - reflexivity.
Defined.

(** ** ExecuteNeverAttribute and the address operand *)

(** X9. Whatever value the header gives [XN], the descriptor bits that
    [xlat_arch_regime_get_xn_desc] returns lie in bits 54:52: the value is
    a multiple of 2^52 below 2^55, so or-ing it into a descriptor never
    touches the output address or the lower attributes. *)
Theorem xn_desc_within_upper_attrs (hdr : arch_hdr) (xlat_regime : Z) :
  xlat_arch_regime_get_xn_desc hdr xlat_regime mod 2 ^ 52 = 0 /\
  0 <= xlat_arch_regime_get_xn_desc hdr xlat_regime < 2 ^ 55.
Proof.
  unfold xlat_arch_regime_get_xn_desc, UPPER_ATTRS, u64.
  change 0x7 with (Z.ones 3). rewrite Z.land_ones by lia.
  rewrite Z.shiftl_mul_pow2 by lia.
  pose proof (Z.mod_pos_bound (XN hdr) (2 ^ 3) ltac:(lia)) as Hx.
  rewrite (Z.mod_small (_ * 2 ^ 52)) by lia.
  split; [apply Z.mod_mul; lia | lia].
Qed.

Lemma TLBI_ADDR_aarch32 (va : Z) :
  is_u32 va -> TLBI_ADDR aarch32_hdr va = 4096 * (va / 4096).
Proof.
  unfold is_u32, UINT32_MAX. intros Hva. unfold TLBI_ADDR.
  simpl TLBI_ADDR_SHIFT. simpl TLBI_ADDR_MASK. rewrite Z.shiftr_0_r.
  apply Z.bits_inj'. intros n Hn.
  rewrite Z.land_spec.
  change 0xFFFFF000 with (Z.shiftl (Z.ones 20) 12).
  rewrite Z.shiftl_spec by exact Hn.
  change 4096 with (2 ^ 12). rewrite Z.mul_comm, Z.mul_pow2_bits by lia.
  destruct (Z_lt_le_dec n 12) as [Hlt | Hge].
  - rewrite !(Z.testbit_neg_r _ (n - 12)) by lia. apply andb_false_r.
  - rewrite Z.testbit_ones_nonneg by lia.
    rewrite Z.div_pow2_bits by lia.
    replace (n - 12 + 12) with n by lia.
    destruct (Z.ltb_spec (n - 12) 20) as [H | H]; [apply andb_true_r |].
    rewrite andb_false_r. symmetry.
    rewrite <- (Z.mod_small va (2 ^ 32)) by lia.
    apply Z.mod_pow2_bits_high. lia.
Qed.

(** X10. The operand of the invalidation is the address of the page: for
    two 32-bit addresses in the same 4 KiB page [xlat_arch_tlbi_va] issues
    the same instructions, and the operand is the address with its twelve
    low bits cleared. *)
Theorem tlbi_va_same_page (va1 va2 regime1 regime2 : Z) (s : cpu) :
  is_u32 va1 -> is_u32 va2 ->
  va1 / 4096 = va2 / 4096 ->
  xlat_arch_tlbi_va aarch32_hdr va1 regime1 s
  = xlat_arch_tlbi_va aarch32_hdr va2 regime2 s /\
  xlat_arch_tlbi_va aarch32_hdr va1 regime1 s
  = Ret tt (issue (tlbimvaais_op (va1 - va1 mod 4096)) (issue dsbishst_op s)).
Proof.
  intros H1 H2 Hpage.
  rewrite !xlat_arch_tlbi_va_run, !TLBI_ADDR_aarch32 by assumption.
  rewrite Hpage. split; [reflexivity |].
  do 3 f_equal. pose proof (Z.div_mod va2 4096 ltac:(lia)) as Hd.
  rewrite <- Hpage in *. pose proof (Z.div_mod va1 4096 ltac:(lia)). lia.
Qed.

Lemma tlbi_va_same_page_witness :
  xlat_arch_tlbi_va aarch32_hdr 0x12345678 1 secure_cpu
  = xlat_arch_tlbi_va aarch32_hdr 0x12345FFF 3 secure_cpu /\
  xlat_arch_tlbi_va aarch32_hdr 0x12345678 1 secure_cpu
  = Ret tt (issue (tlbimvaais_op (0x12345678 - 0x12345678 mod 4096))
              (issue dsbishst_op secure_cpu)).
Proof.
  apply (tlbi_va_same_page 0x12345678 0x12345FFF 1 3 secure_cpu).
  - unfold is_u32, UINT32_MAX. lia.
  - unfold is_u32, UINT32_MAX. lia.
  - reflexivity.
Defined.

(** ** GranuleCapabilityQuery, for any page size constant *)

(** X11. The two granule queries agree whatever [PAGE_SIZE_4KB] is: the
    size [xlat_arch_get_max_supported_granule_size] reports is supported,
    it is the only supported size, and the answer is always 0 or 1. *)
Theorem granule_queries_agree (hdr : arch_hdr) (size : Z) :
  xlat_arch_is_granule_size_supported hdr
    (xlat_arch_get_max_supported_granule_size hdr) = 1 /\
  (xlat_arch_is_granule_size_supported hdr size = 1 <->
   size = xlat_arch_get_max_supported_granule_size hdr) /\
  (xlat_arch_is_granule_size_supported hdr size = 0 \/
   xlat_arch_is_granule_size_supported hdr size = 1).
Proof.
  unfold xlat_arch_is_granule_size_supported,
    xlat_arch_get_max_supported_granule_size.
  rewrite Z.eqb_refl.
  destruct (Z.eqb_spec size (PAGE_SIZE_4KB hdr)) as [E | E].
  - repeat split; auto.
  - split; [reflexivity |]. split; [split; [discriminate | contradiction] |].
    left. reflexivity.
Qed.
